(** * Backend providers of the Mongo/Postgres benchmark

    A shallow embedding of [postgres/db_ops.go] and [mongo/db_opts.go].
    Every provider method is a program in a small state-and-panic monad
    over a [World]: the record template behind [*data], the identifier
    generator, the randomness source, the content of the target table or
    collection, the behaviour of the backend during the call, and the
    trace of what the method did (generator calls, driver calls with
    their context, decodes, log lines). *)

From Stdlib Require Import ZArith NArith List String Ascii Bool Lia.
From stdpp Require Import base option list gmap strings pretty.

Local Open Scope string_scope.
Local Open Scope list_scope.

(** ** Go values *)

Abbreviation uint64 := N (only parsing).

(** [math.MaxInt64] *)
Definition MaxInt64 : N := 9223372036854775807%N.

(** A [float32] is kept as its IEEE-754 binary32 bit pattern. *)
Abbreviation float32 := N (only parsing).

Abbreviation error := string (only parsing).

(** The pair [(T, error)] of a fallible Go call. *)
Inductive result (A : Type) : Type :=
| Ok (a : A)
| Err (e : error).
Arguments Ok {A} a.
Arguments Err {A} e.

(** [err != nil] *)
Definition notNil (err : option error) : bool :=
  match err with
  | Some _ => true
  | None => false
  end.

Definition exponent (f : float32) : N := N.land (N.shiftr f 23) 255.

(** [!math.IsInf(f, 0) && !math.IsNaN(f)] *)
Definition IsFinite (f : float32) : bool := negb (exponent f =? 255)%N.

(** ** package record *)

(** Modelled from the spec: the struct record.Person is declared outside
    the files at hand. The spec gives it an unsigned 64-bit identifier,
    demographic and numeric fields (age, balance, name) and a padding
    field; the providers address the keys id (_id in Mongo), age and
    balance. *)
Record Person : Type := {
  ID : uint64;
  Name : string;
  Age : Z;
  Balance : float32;
  Padding : string
}.

Definition zero_Person : Person :=
  {| ID := 0%N; Name := ""; Age := 0%Z; Balance := 0%N; Padding := "" |}.

(** [data.ID = v] *)
Definition set_ID (v : uint64) (p : Person) : Person :=
  {| ID := v; Name := Name p; Age := Age p; Balance := Balance p;
     Padding := Padding p |}.

(** The bit pattern of [1.0]. *)
Definition one_bits : float32 := 1065353216%N.

(** [math/rand]: the one draw the providers make themselves.
    [rnd.Float32()] returns a number in the half-open interval
    [[0.0, 1.0)], that is a bit pattern below the one of [1.0]. *)
Class RandSource (R : Type) : Type := {
  Float32 : R -> float32 * R;
  Float32_range : forall r, (fst (Float32 r) < one_bits)%N
}.

(** The method [Randomise] of [*record.Person], declared outside the
    files at hand and taken as a parameter: it redraws fields of the
    record from the randomness source. Nothing about the drawn values is
    assumed. *)
Class Randomiser (R : Type) : Type := {
  Randomise : Person -> R -> Person * R
}.

(** ** package idgen *)

(** The interface idgen.Generator, as the providers use it. *)
Class Generator (G : Type) : Type := {
  GetNew : G -> uint64 * G;
  GetExisting : G -> uint64 * G
}.

(** ** Stored documents *)

(** A JSON scalar other than the numbers the queries compare. *)
Inductive Value : Type :=
| VNum (f : float32)
| VStr (s : string).

(** A row of the jsonb column [data], or a BSON document. The identifier
    and the age are the numbers the queries compare; the other keys hold
    any scalar, so a stored document need not decode to a [Person]. *)
Record Doc : Type := {
  d_id : uint64;
  d_age : Z;
  d_balance : Value;
  d_name : Value;
  d_padding : Value
}.

Definition encode (p : Person) : Doc :=
  {| d_id := ID p; d_age := Age p; d_balance := VNum (Balance p);
     d_name := VStr (Name p); d_padding := VStr (Padding p) |}.

(** [json.Marshal(data)]: encoding/json rejects NaN and the infinities. *)
Definition Marshal (p : Person) : result Doc :=
  if IsFinite (Balance p) then Ok (encode p)
  else Err "json: unsupported value".

(** [json.Unmarshal(rawData, &data)] and the BSON [Decode(&data)]. *)
Definition Unmarshal (d : Doc) : result Person :=
  match d_balance d, d_name d, d_padding d with
  | VNum f, VStr n, VStr pad =>
      Ok {| ID := d_id d; Name := n; Age := d_age d; Balance := f;
            Padding := pad |}
  | _, _, _ => Err "cannot unmarshal value into field of type Person"
  end.

Definition set_balance (v : Value) (d : Doc) : Doc :=
  {| d_id := d_id d; d_age := d_age d; d_balance := v; d_name := d_name d;
     d_padding := d_padding d |}.

(** ** context *)

Inductive Context : Type :=
| Background
| WithTimeout (parent : Context) (d : Z).

(** [time.Second], in nanoseconds. *)
Definition Second : Z := 1000000000.

(** Time left until the context is cancelled, if it ever is. *)
Fixpoint Deadline (c : Context) : option Z :=
  match c with
  | Background => None
  | WithTimeout parent d =>
      match Deadline parent with
      | Some d' => Some (Z.min d d')
      | None => Some d
      end
  end.

(** ** The backend during one call *)

(** [latency] is the time the backend takes to answer. [fault] is the
    error the driver call itself comes back with (no connection, a
    statement that is refused, a reply that is lost). [write_lands] tells
    whether the backend has applied a write whose call comes back with an
    error or expires: the caller only stops waiting and cannot tell.
    [next_fault i] is an error fetching row [i] of a result, which is how
    an error while a query executes reaches the caller of pgx's [Query]
    (through [rows.Err()]) and of a Mongo cursor (through [cursor.Err()]).
    [scan_fault i] is an error converting row [i] of a result. *)
Record Env : Type := {
  latency : Z;
  fault : option error;
  write_lands : bool;
  scan_fault : nat -> option error;
  next_fault : nat -> option error
}.

Definition DeadlineExceeded : error := "context deadline exceeded".

(** The error a driver call made under [c] comes back with, if any: a
    call whose context expires first comes back with [DeadlineExceeded],
    a call without deadline waits for the answer. What became of a write
    in the backend is up to [write_lands]. *)
Definition refusal (c : Context) (e : Env) : option error :=
  match Deadline c with
  | Some d => if (d <? latency e)%Z then Some DeadlineExceeded else fault e
  | None => fault e
  end.

(** ** Statements *)

Inductive Filter : Type :=
| MatchAll
| MatchID (id : uint64)
| MatchAge (gt lt : Z).

Definition matches (f : Filter) (d : Doc) : bool :=
  match f with
  | MatchAll => true
  | MatchID id => (d_id d =? id)%N
  | MatchAge gt lt => (gt <? d_age d)%Z && (d_age d <? lt)%Z
  end.

Inductive Command : Type :=
| Insert (d : Doc)
| SetBalance (f : Filter) (v : float32).

Inductive Query : Type :=
| Select (f : Filter)
| Latest.

(** [ORDER BY data->'id' DESC LIMIT 1], and the sort [{_id: -1}] of a
    FindOne. *)
Fixpoint newest (l : list Doc) : option Doc :=
  match l with
  | [] => None
  | d :: tl =>
      match newest tl with
      | Some m => if (d_id d <? d_id m)%N then Some m else Some d
      | None => Some d
      end
  end.

Definition answer (q : Query) (rows : list Doc) : list Doc :=
  match q with
  | Select f => List.filter (matches f) rows
  | Latest => match newest rows with Some d => [d] | None => [] end
  end.

(** [UPDATE ... WHERE]: every matching row. *)
Definition update_all (f : Filter) (v : Value) (rows : list Doc) : list Doc :=
  List.map (fun d => if matches f d then set_balance v d else d) rows.

(** [UpdateOne]: the first matching document. *)
Fixpoint update_first (f : Filter) (v : Value) (rows : list Doc) : list Doc :=
  match rows with
  | [] => []
  | d :: tl =>
      if matches f d then set_balance v d :: tl
      else d :: update_first f v tl
  end.

Definition count_matches (f : Filter) (rows : list Doc) : N :=
  N.of_nat (length (List.filter (matches f) rows)).

(** ** Traces *)

Inductive LogArg : Type :=
| LInt (n : uint64)
| LErr (e : error).

Inductive Event : Type :=
| ERandomise
| EGetNew (v : uint64)
| EGetExisting (v : uint64)
| EFloat32 (f : float32)
| EExec (c : Context) (table : string) (cmd : Command)
| EQuery (c : Context) (table : string) (q : Query)
| EDecode (d : Doc)
| ELog (args : list LogArg).

(** ** The monad of provider methods *)

Record World (G R : Type) : Type := mkWorld {
  data : Person;
  gen : G;
  rnd : R;
  rows : list Doc;
  env : Env;
  trace : list Event
}.
Arguments mkWorld {G R}.
Arguments data {G R}.
Arguments gen {G R}.
Arguments rnd {G R}.
Arguments rows {G R}.
Arguments env {G R}.
Arguments trace {G R}.

Inductive Outcome (A : Type) : Type :=
| Returned (a : A)
| Panicked (e : error).
Arguments Returned {A} a.
Arguments Panicked {A} e.

Definition M (G R A : Type) : Type := World G R -> Outcome A * World G R.

Definition ret {G R A} (a : A) : M G R A := fun w => (Returned a, w).

Definition bind {G R A B} (m : M G R A) (k : A -> M G R B) : M G R B :=
  fun w =>
    match m w with
    | (Returned a, w') => k a w'
    | (Panicked e, w') => (Panicked e, w')
    end.

Definition panic {G R A} (e : error) : M G R A := fun w => (Panicked e, w).

Declare Scope go_scope.
Delimit Scope go_scope with go.
Notation "x <- m ;; k" := (bind m (fun x => k))
  (at level 100, m at next level, right associativity) : go_scope.
Notation "m ;; k" := (bind m (fun _ => k))
  (at level 100, right associativity) : go_scope.
Open Scope go_scope.

Definition emit {G R} (e : Event) : M G R unit :=
  fun w => (Returned tt,
            mkWorld (data w) (gen w) (rnd w) (rows w) (env w) (trace w ++ [e])).

Definition set_rows {G R} (l : list Doc) : M G R unit :=
  fun w => (Returned tt, mkWorld (data w) (gen w) (rnd w) l (env w) (trace w)).

Definition ask {G R A} (f : World G R -> A) : M G R A :=
  fun w => (Returned (f w), w).

(** [log.Println(args...)] *)
Definition Println {G R} (args : list LogArg) : M G R unit := emit (ELog args).

(** [data.Randomise(rnd)] *)
Definition data_Randomise {G R} `{Randomiser R} : M G R unit :=
  fun w =>
    let '(p, r) := Randomise (data w) (rnd w) in
    emit ERandomise (mkWorld p (gen w) r (rows w) (env w) (trace w)).

(** [data.ID = v] *)
Definition data_set_ID {G R} (v : uint64) : M G R unit :=
  fun w => (Returned tt,
            mkWorld (set_ID v (data w)) (gen w) (rnd w) (rows w) (env w) (trace w)).

(** [id.GetNew()] *)
Definition id_GetNew {G R} `{Generator G} : M G R uint64 :=
  fun w =>
    let '(v, g) := GetNew (gen w) in
    (emit (EGetNew v);; ret v)
      (mkWorld (data w) g (rnd w) (rows w) (env w) (trace w)).

(** [id.GetExisting()] *)
Definition id_GetExisting {G R} `{Generator G} : M G R uint64 :=
  fun w =>
    let '(v, g) := GetExisting (gen w) in
    (emit (EGetExisting v);; ret v)
      (mkWorld (data w) g (rnd w) (rows w) (env w) (trace w)).

(** [rnd.Float32()] *)
Definition rnd_Float32 {G R} `{RandSource R} : M G R float32 :=
  fun w =>
    let '(f, r) := Float32 (rnd w) in
    (emit (EFloat32 f);; ret f)
      (mkWorld (data w) (gen w) r (rows w) (env w) (trace w)).

(** [json.Unmarshal] and [Decode], leaving the decoded document in the
    trace. *)
Definition decode {G R} (raw : Doc) : M G R (result Person) :=
  emit (EDecode raw);; ret (Unmarshal raw).

(** The five operations of the provider contract. *)
Inductive Op : Type :=
| OpInsert
| OpUpdate
| OpRead
| OpRange
| OpRecent.

(** ** strings and strconv *)

(** [strings.TrimPrefix(s, prefix)] *)
Definition TrimPrefix (s prefix : string) : string :=
  if String.prefix prefix s
  then String.substring (String.length prefix)
         (String.length s - String.length prefix) s
  else s.

(** A Go string is a sequence of bytes. *)
Definition bytes (s : string) : list N :=
  List.map N_of_ascii (list_ascii_of_string s).

Definition of_bytes (bs : list N) : string :=
  string_of_list_ascii (List.map ascii_of_N bs).

(** [utf8.RuneError], the rune an invalid encoding is read as. *)
Definition RuneError : N := 65533%N.

(** A continuation byte. *)
Definition continuation (b : N) : bool := ((128 <=? b) && (b <=? 191))%N.

(** The second byte a leading byte accepts: no overlong encoding, no
    surrogate half, nothing above [utf8.MaxRune]. *)
Definition second_byte (b0 b1 : N) : bool :=
  (if b0 =? 224 then (160 <=? b1) && (b1 <=? 191)
   else if b0 =? 237 then (128 <=? b1) && (b1 <=? 159)
   else if b0 =? 240 then (144 <=? b1) && (b1 <=? 191)
   else if b0 =? 244 then (128 <=? b1) && (b1 <=? 143)
   else continuation b1)%N.

(** The runes of [for _, c := range s]: a byte that starts no valid
    encoding is read as [RuneError] and the next byte is looked at. *)
Fixpoint runes (s : list N) : list N :=
  match s with
  | [] => []
  | b0 :: t1 =>
      if (b0 <? 128)%N then b0 :: runes t1
      else
        match t1 with
        | [] => [RuneError]
        | b1 :: t2 =>
            if ((194 <=? b0) && (b0 <=? 223))%N
            then
              if continuation b1
              then (b0 mod 32 * 64 + b1 mod 64)%N :: runes t2
              else RuneError :: runes t1
            else
              match t2 with
              | [] => RuneError :: runes t1
              | b2 :: t3 =>
                  if ((224 <=? b0) && (b0 <=? 239))%N
                  then
                    if second_byte b0 b1 && continuation b2
                    then (b0 mod 16 * 4096 + b1 mod 64 * 64 + b2 mod 64)%N
                         :: runes t3
                    else RuneError :: runes t1
                  else
                    match t3 with
                    | [] => RuneError :: runes t1
                    | b3 :: t4 =>
                        if ((240 <=? b0) && (b0 <=? 244))%N
                           && second_byte b0 b1 && continuation b2
                           && continuation b3
                        then (b0 mod 8 * 262144 + b1 mod 64 * 4096
                              + b2 mod 64 * 64 + b3 mod 64)%N :: runes t4
                        else RuneError :: runes t1
                    end
              end
        end
  end.

(** [utf8.AppendRune]: a surrogate half or a value above [utf8.MaxRune]
    is written as [RuneError]. *)
Definition EncodeRune (r : N) : list N :=
  (if r <=? 127 then [r]
   else if r <=? 2047 then [192 + r / 64; 128 + r mod 64]
   else if (1114111 <? r) || ((55296 <=? r) && (r <=? 57343))
        then [239; 191; 189]
   else if r <=? 65535
        then [224 + r / 4096; 128 + r / 64 mod 64; 128 + r mod 64]
   else [240 + r / 262144; 128 + r / 4096 mod 64; 128 + r / 64 mod 64;
         128 + r mod 64])%N.

(** The tables [unicode.CaseRanges] are taken as a parameter: the lower
    case of a rune above [unicode.MaxASCII]. Nothing is assumed about
    them. *)
Class CaseTable : Type := {
  lower_case : N -> N
}.

(** [unicode.ToLower(r)] *)
Definition unicode_ToLower `{CaseTable} (r : N) : N :=
  (if r <=? 127
   then if (65 <=? r) && (r <=? 90) then r + 32 else r
   else lower_case r)%N.

(** [strings.ToLower(s)]: a string of ASCII bytes has its letters A to
    Z mapped; any other string is [strings.Map(unicode.ToLower, s)],
    every rune mapped and written back, an invalid byte as
    [RuneError]. *)
Definition ToLower `{CaseTable} (s : string) : string :=
  let bs := bytes s in
  if forallb (fun b => b <? 128)%N bs
  then of_bytes (List.map unicode_ToLower bs)
  else of_bytes (concat (List.map (fun r => EncodeRune (unicode_ToLower r))
                           (runes bs))).

Definition digit (c : ascii) : option Z :=
  let n := Z.of_nat (nat_of_ascii c) in
  if (48 <=? n)%Z && (n <=? 57)%Z then Some (n - 48)%Z else None.

Fixpoint digits (acc : Z) (s : string) : option Z :=
  match s with
  | EmptyString => Some acc
  | String c tl =>
      match digit c with
      | Some d => digits (10 * acc + d)%Z tl
      | None => None
      end
  end.

(** The sign of a decimal literal and what follows it. *)
Definition split_sign (s : string) : bool * string :=
  match s with
  | String "-"%char tl => (true, tl)
  | String "+"%char tl => (false, tl)
  | _ => (false, s)
  end.

(** [strconv.Atoi(s)], [int] being 64 bits wide. *)
Definition Atoi (s : string) : result Z :=
  let '(neg, body) := split_sign s in
  match body with
  | EmptyString => Err "strconv.Atoi: invalid syntax"
  | _ =>
      match digits 0 body with
      | None => Err "strconv.Atoi: invalid syntax"
      | Some n =>
          let v := if neg then (- n)%Z else n in
          if (- 2 ^ 63 <=? v)%Z && (v <=? 2 ^ 63 - 1)%Z then Ok v
          else Err "strconv.Atoi: value out of range"
      end
  end.

(** A [case] of a [switch] over strings. *)
Definition one_of (s : string) (labels : list string) : bool :=
  existsb (String.eqb s) labels.

(** ** net/url *)

(** [url.Values], the parsed query: [map[string][]string]. *)
Abbreviation Values := (gmap string (list string)) (only parsing).

(** [*url.URL]. The query is kept in parsed form: [endpoint.Query()]
    reads it and [endpoint.RawQuery = q.Encode()] stores it back. *)
Record URL : Type := {
  Scheme : string;
  Host : string;
  Path : string;
  RawQuery : Values
}.

(** [q.Get(key)]: the first value of the key, or the empty string. *)
Definition Get (q : Values) (key : string) : string :=
  match q !! key with
  | Some (v :: _) => v
  | _ => ""
  end.

(** [q.Del(key)] *)
Definition Del (q : Values) (key : string) : Values := delete key q.

(** [endpoint.RawQuery = q] *)
Definition set_RawQuery (q : Values) (u : URL) : URL :=
  {| Scheme := Scheme u; Host := Host u; Path := Path u; RawQuery := q |}.

(** ** The drivers' handles *)

Module pgxpool.

(** [*pgxpool.Config]: the parsed connection string. *)
Record Config : Type := { ConnString : URL }.

(** [*pgxpool.Pool]: the pool, named by the configuration it was opened
    with. *)
Record Pool : Type := { pool_config : Config }.

(** The calls NewProvider makes into pgxpool; what they return is up to
    the library and the server. *)
Record Driver : Type := {
  ParseConfig : URL -> result Config;
  ConnectConfig : Context -> Config -> result Pool;
  Ping : Pool -> Context -> option error
}.

End pgxpool.

Module mongodriver.

Inductive ReadConcern : Type :=
| Majority
| Local
| Linearizable.

(** The acknowledgment level of a write concern. *)
Inductive WLevel : Type :=
| WMajority
| W (n : Z).

Record WriteConcern : Type := {
  wc_w : WLevel;
  wc_j : bool
}.

(** [writeconcern.New(w)] *)
Definition New (w : WLevel) : WriteConcern := {| wc_w := w; wc_j := false |}.

(** [wc.WithOptions(writeconcern.J(j))] *)
Definition WithJ (j : bool) (wc : WriteConcern) : WriteConcern :=
  {| wc_w := wc_w wc; wc_j := j |}.

(** [options.Client().ApplyURI(uri).SetWriteConcern(wc).SetReadConcern(rc)] *)
Record ClientOptions : Type := {
  opt_uri : URL;
  opt_wc : WriteConcern;
  opt_rc : ReadConcern
}.

(** [*mongo.Client]: the handle, named by the options it was opened with. *)
Record Client : Type := { client_opts : ClientOptions }.

(** [client.Database(dbName).Collection(tableName)] *)
Record Collection : Type := {
  coll_client : Client;
  coll_db : string;
  coll_name : string
}.

(** The calls NewProvider makes into the driver; what they return is up
    to the library and the server. An endpoint that ApplyURI cannot use
    is reported by Connect. *)
Record Driver : Type := {
  Connect : Context -> ClientOptions -> result Client;
  Ping : Client -> Context -> option error
}.

End mongodriver.

(** ** package postgres *)

Module postgres.

Definition ErrNoRows : error := "no rows in result set".

Record FuncProvider : Type := {
  DB : pgxpool.Pool;
  TableName : string
}.

Section Methods.
Context {G R : Type} `{Generator G} `{RandSource R} `{Randomiser R}.

(** The rows after the backend has applied a command. A balance text
    that is not a JSON number fails the cast [$1::jsonb], and nothing is
    written. *)
Definition applied (cmd : Command) (l : list Doc) : list Doc :=
  match cmd with
  | Insert d => l ++ [d]
  | SetBalance f v => if IsFinite v then update_all f (VNum v) l else l
  end.

(** [p.DB.Exec(ctx, sql, args...)]: the number of rows affected, or the
    error. A balance text that is not a JSON number fails the cast
    [$1::jsonb]. When the call comes back with an error, the backend may
    have applied the command all the same. *)
Definition Exec (c : Context) (table : string) (cmd : Command)
  : M G R (result N) :=
  emit (EExec c table cmd);;
  e <- ask env;;
  match refusal c e with
  | Some err =>
      l <- ask rows;;
      (if write_lands e then set_rows (applied cmd l) else ret tt);;
      ret (Err err)
  | None =>
      l <- ask rows;;
      match cmd with
      | Insert d => set_rows (l ++ [d]);; ret (Ok 1%N)
      | SetBalance f v =>
          if IsFinite v
          then set_rows (update_all f (VNum v) l);; ret (Ok (count_matches f l))
          else ret (Err "invalid input syntax for type json")
      end
  end.

(** [p.DB.QueryRow(ctx, sql, args...)]: the first row of the answer, or
    the error its [Scan] is going to report. *)
Definition QueryRow (c : Context) (table : string) (q : Query)
  : M G R (result Doc) :=
  emit (EQuery c table q);;
  e <- ask env;;
  match refusal c e with
  | Some err => ret (Err err)
  | None =>
      l <- ask rows;;
      match answer q l with
      | [] => ret (Err ErrNoRows)
      | d :: _ =>
          match next_fault e 0 with
          | Some err => ret (Err err)
          | None => ret (Ok d)
          end
      end
  end.

(** [row.Scan(&dst)] *)
Definition Scan (row : result Doc) : M G R (result Doc) :=
  match row with
  | Err err => ret (Err err)
  | Ok d =>
      e <- ask env;;
      match scan_fault e 0 with
      | Some err => ret (Err err)
      | None => ret (Ok d)
      end
  end.

(** [p.DB.Query(ctx, sql)]: the rows of the answer, or the error of the
    call itself. An error while the query executes is not returned here:
    pgx keeps it in the rows, where it ends the iteration ([next_fault])
    and waits in [rows.Err()]. *)
Definition Query (c : Context) (table : string) (q : Query)
  : M G R (result (list Doc)) :=
  emit (EQuery c table q);;
  e <- ask env;;
  match refusal c e with
  | Some err => ret (Err err)
  | None => l <- ask rows;; ret (Ok (answer q l))
  end.

(** InsertRecord generates a new random record and inserts it with an ID
    provided by id.GetNew as a JSON-encoded string. *)
Definition InsertRecord (p : FuncProvider) : M G R bool :=
  data_Randomise;;
  v <- id_GetNew;;
  data_set_ID v;;
  d <- ask data;;
  match Marshal d with
  | Err err => panic err
  | Ok jsonData =>
      r <- Exec Background (TableName p) (Insert jsonData);;
      match r with
      | Err err => Println [LErr err];; ret false
      | Ok _ => ret true
      end
  end.

(** UpdateRecord attempts to update the record with ID returned by
    id.GetExisting. *)
Definition UpdateRecord (p : FuncProvider) : M G R bool :=
  recordID <- id_GetExisting;;
  f <- rnd_Float32;;
  r <- Exec Background (TableName p) (SetBalance (MatchID recordID) f);;
  match r with
  | Err err => Println [LInt recordID; LErr err];; ret false
  | Ok _ => ret true
  end.

(** ReadRecord attempts to fetch the record with an ID returned by
    id.GetExisting. *)
Definition ReadRecord (p : FuncProvider) : M G R bool :=
  recordID <- id_GetExisting;;
  row <- QueryRow Background (TableName p) (Select (MatchID recordID));;
  r <- Scan row;;
  match r with
  | Err err => Println [LInt recordID; LErr err];; ret false
  | Ok rawData =>
      u <- decode rawData;;
      match u with
      | Err err => Println [LInt recordID; LErr err];; ret false
      | Ok _ => ret true
      end
  end.

(** The loop [for rows.Next() { Scan; Unmarshal }] of ReadRange over the
    rows still to come, [i] being the index of the next one. When
    fetching a row fails, [rows.Next()] is false and the loop ends like
    at the end of the rows: [rows.Err()] is not read. *)
Fixpoint scan_loop (i : nat) (pending : list Doc) : M G R bool :=
  match pending with
  | [] => ret true
  | rawData :: rest =>
      e <- ask env;;
      match next_fault e i with
      | Some _ => ret true
      | None =>
          match scan_fault e i with
          | Some err => Println [LErr err];; ret false
          | None =>
              u <- decode rawData;;
              match u with
              | Err err => Println [LErr err];; ret false
              | Ok _ => scan_loop (S i) rest
              end
          end
      end
  end.

(** ReadRange performs a range query on the age field. *)
Definition ReadRange (p : FuncProvider) : M G R bool :=
  r <- Query Background (TableName p) (Select (MatchAge 45 75));;
  match r with
  | Err err => Println [LErr err];; ret false
  | Ok rows => scan_loop 0 rows
  end.

(** ReadMostRecentRecord fetches the most recently inserted record by
    performing a sort on the ID field, and limiting the results to a
    single record. *)
Definition ReadMostRecentRecord (p : FuncProvider) : M G R bool :=
  row <- QueryRow Background (TableName p) Latest;;
  r <- Scan row;;
  match r with
  | Err err => Println [LErr err];; ret false
  | Ok rawData =>
      u <- decode rawData;;
      match u with
      | Err err => Println [LErr err];; ret false
      | Ok _ => ret true
      end
  end.

(** [fmt.Errorf("no existing data? error = %v, count = %d", err, count)] *)
Definition no_existing_data (err : option error) (count : uint64) : error :=
  "no existing data? error = "
  ++ match err with Some e => e | None => "<nil>" end
  ++ ", count = " ++ pretty count.

(** GetMaxID returns the highest ID in the table. The query selects
    [data->'id'] of the newest row and [Scan] stores it in [count], which
    stays 0 when [Scan] fails. *)
Definition GetMaxID (p : FuncProvider) : M G R (uint64 * option error) :=
  row <- QueryRow Background (TableName p) Latest;;
  r <- Scan row;;
  let count := match r with Ok d => d_id d | Err _ => 0%N end in
  let err := match r with Ok _ => None | Err e => Some e end in
  if notNil err || (count =? 0)%N
  then ret (0%N, Some (no_existing_data err count))
  else ret (count, None).

Definition call (p : FuncProvider) (o : Op) : M G R bool :=
  match o with
  | OpInsert => InsertRecord p
  | OpUpdate => UpdateRecord p
  | OpRead => ReadRecord p
  | OpRange => ReadRange p
  | OpRecent => ReadMostRecentRecord p
  end.

End Methods.

(** NewProvider returns an instance of FuncProvider. The call
    [runtime.GOMAXPROCS(2)] before the return has no part in the result. *)
Definition NewProvider (drv : pgxpool.Driver) (endpoint : URL)
  (tableName : string) : option FuncProvider * option error :=
  match pgxpool.ParseConfig drv endpoint with
  | Err err => (None, Some err)
  | Ok config =>
      match pgxpool.ConnectConfig drv Background config with
      | Err err => (None, Some err)
      | Ok pool =>
          match pgxpool.Ping drv pool Background with
          | Some err => (None, Some err)
          | None => (Some {| DB := pool; TableName := tableName |}, None)
          end
      end
  end.

End postgres.

(** ** package mongo *)

Module mongo.

Definition ErrNoDocuments : error := "mongo: no documents in result".
Definition DuplicateKey : error := "E11000 duplicate key error".

(** The error of the driver's BSON encoder for a [uint64] above
    [math.MaxInt64]: it writes the value as an [int64] and refuses one
    that does not fit, before anything is sent. *)
Definition overflows (v : uint64) : error :=
  String.append (pretty v) " overflows int64".

Record FuncProvider : Type := {
  Client : mongodriver.Client;
  Collection : mongodriver.Collection
}.

Section Methods.
Context {G R : Type} `{Generator G} `{RandSource R} `{Randomiser R}.

(** [context.WithTimeout(context.Background(), 10*time.Second)] *)
Definition ctx : Context := WithTimeout Background (10 * Second).

(** [p.Collection.InsertOne(ctx, data)]: the driver encodes the record,
    which fails for an identifier above [math.MaxInt64], and the server
    refuses an [_id] that is already there. When the call comes back with
    an error of the backend or expires, the server may have stored the
    document all the same. *)
Definition InsertOne (c : Context) (coll : mongodriver.Collection) (p : Person)
  : M G R (result uint64) :=
  let d := encode p in
  emit (EExec c (mongodriver.coll_name coll) (Insert d));;
  if (MaxInt64 <? d_id d)%N then ret (Err (overflows (d_id d)))
  else
    e <- ask env;;
    match refusal c e with
    | Some err =>
        l <- ask rows;;
        (if write_lands e && negb (existsb (matches (MatchID (d_id d))) l)
         then set_rows (l ++ [d])
         else ret tt);;
        ret (Err err)
    | None =>
        l <- ask rows;;
        if existsb (matches (MatchID (d_id d))) l
        then ret (Err DuplicateKey)
        else set_rows (l ++ [d]);; ret (Ok (d_id d))
    end.

(** [p.Collection.UpdateOne(ctx, bson.M{"_id": id}, bson.M{"$set":
    bson.M{"balance": v}})]: the number of documents matched, or the
    error. The driver encodes the filter first, which fails for an
    identifier above [math.MaxInt64]. When the call comes back with an
    error of the backend or expires, the server may have applied the
    update all the same. *)
Definition UpdateOne (c : Context) (coll : mongodriver.Collection) (id : uint64)
  (v : float32) : M G R (result N) :=
  emit (EExec c (mongodriver.coll_name coll) (SetBalance (MatchID id) v));;
  if (MaxInt64 <? id)%N then ret (Err (overflows id))
  else
    e <- ask env;;
    match refusal c e with
    | Some err =>
        l <- ask rows;;
        (if write_lands e
         then set_rows (update_first (MatchID id) (VNum v) l)
         else ret tt);;
        ret (Err err)
    | None =>
        l <- ask rows;;
        set_rows (update_first (MatchID id) (VNum v) l);;
        ret (Ok (N.min 1 (count_matches (MatchID id) l)))
    end.

(** [p.Collection.FindOne(ctx, filter, opts...)]: the document, or the
    error its [Decode] is going to report. (A filter identifier above
    [math.MaxInt64] is not encoded either; no document the driver has
    stored carries such an identifier, and the call finds none.) *)
Definition FindOne (c : Context) (coll : mongodriver.Collection) (q : Query)
  : M G R (result Doc) :=
  emit (EQuery c (mongodriver.coll_name coll) q);;
  e <- ask env;;
  match refusal c e with
  | Some err => ret (Err err)
  | None =>
      l <- ask rows;;
      match answer q l with
      | [] => ret (Err ErrNoDocuments)
      | d :: _ =>
          match next_fault e 0 with
          | Some err => ret (Err err)
          | None => ret (Ok d)
          end
      end
  end.

(** [single.Decode(&data)] with [data] a [record.Person] *)
Definition Decode (single : result Doc) : M G R (option error) :=
  match single with
  | Err err => ret (Some err)
  | Ok d =>
      u <- decode d;;
      match u with
      | Err err => ret (Some err)
      | Ok _ => ret None
      end
  end.

(** [p.Collection.Find(ctx, filter)]: the documents of the cursor, or the
    error. *)
Definition Find (c : Context) (coll : mongodriver.Collection) (f : Filter)
  : M G R (result (list Doc)) :=
  emit (EQuery c (mongodriver.coll_name coll) (Select f));;
  e <- ask env;;
  match refusal c e with
  | Some err => ret (Err err)
  | None => l <- ask rows;; ret (Ok (answer (Select f) l))
  end.

(** InsertRecord generates a new random record and inserts it with an ID
    provided by id.GetNew *)
Definition InsertRecord (p : FuncProvider) : M G R bool :=
  data_Randomise;;
  v <- id_GetNew;;
  data_set_ID v;;
  d <- ask data;;
  r <- InsertOne ctx (Collection p) d;;
  match r with
  | Err err => Println [LErr err];; ret false
  | Ok _ => ret true
  end.

(** UpdateRecord attempts to update the record with ID returned by
    id.GetExisting. *)
Definition UpdateRecord (p : FuncProvider) : M G R bool :=
  recordID <- id_GetExisting;;
  f <- rnd_Float32;;
  r <- UpdateOne ctx (Collection p) recordID f;;
  match r with
  | Err err => Println [LInt recordID; LErr err];; ret false
  | Ok _ => ret true
  end.

(** ReadRecord attempts to fetch the record with an ID returned by
    id.GetExisting. *)
Definition ReadRecord (p : FuncProvider) : M G R bool :=
  recordID <- id_GetExisting;;
  single <- FindOne ctx (Collection p) (Select (MatchID recordID));;
  err <- Decode single;;
  match err with
  | Some e => Println [LInt recordID; LErr e];; ret false
  | None => ret true
  end.

(** The loop [for cursor.Next(ctx) { Decode }] of ReadRange followed by
    the test of [cursor.Err()], over the documents still to come, [i]
    being the index of the next one. When fetching a document fails,
    [cursor.Next] is false and [cursor.Err()] holds the error. *)
Fixpoint cursor_loop (i : nat) (pending : list Doc) : M G R bool :=
  match pending with
  | [] => ret true
  | d :: rest =>
      e <- ask env;;
      match next_fault e i with
      | Some err => Println [LErr err];; ret false
      | None =>
          u <- decode d;;
          match u with
          | Err err => Println [LErr err];; ret false
          | Ok _ => cursor_loop (S i) rest
          end
      end
  end.

(** ReadRange performs a range query on the age field. *)
Definition ReadRange (p : FuncProvider) : M G R bool :=
  r <- Find ctx (Collection p) (MatchAge 45 75);;
  match r with
  | Err err => Println [LErr err];; ret false
  | Ok cursor => cursor_loop 0 cursor
  end.

(** ReadMostRecentRecord fetches the most recently inserted record. *)
Definition ReadMostRecentRecord (p : FuncProvider) : M G R bool :=
  single <- FindOne ctx (Collection p) Latest;;
  err <- Decode single;;
  match err with
  | Some e => Println [LErr e];; ret false
  | None => ret true
  end.

(** GetMaxID returns the largest ID in the collection. The result is
    decoded into a struct with the single field [_id]. *)
Definition GetMaxID (p : FuncProvider) : M G R (uint64 * option error) :=
  single <- FindOne ctx (Collection p) Latest;;
  match single with
  | Err err => ret (0%N, Some (String.append "no existing data? " err))
  | Ok d => ret (d_id d, None)
  end.

Definition call (p : FuncProvider) (o : Op) : M G R bool :=
  match o with
  | OpInsert => InsertRecord p
  | OpUpdate => UpdateRecord p
  | OpRead => ReadRecord p
  | OpRange => ReadRange p
  | OpRecent => ReadMostRecentRecord p
  end.

End Methods.

(** NewProvider validates the endpoint, connects and pings. The note it
    logs when fsync is set has no part in the result. *)
Definition NewProvider `{CaseTable} (drv : mongodriver.Driver) (endpoint : URL)
  (tableName : string) : option FuncProvider * option error :=
  let dbName := TrimPrefix (Path endpoint) "/" in
  if String.eqb dbName "" then (None, Some "database name cannot be empty")
  else
    let q := RawQuery endpoint in
    (* ReadConcern *)
    let s := ToLower (Get q "readConcern") in
    match (if one_of s [""; "majority"] then Some mongodriver.Majority
           else if one_of s ["local"] then Some mongodriver.Local
           else if one_of s ["linearizable"] then Some mongodriver.Linearizable
           else None) with
    | None => (None, Some "unknown readConcern value")
    | Some rc =>
    let q := Del q "readConcern" in
    (* WriteConcern *)
    let w := ToLower (Get q "writeConcern") in
    match (if one_of w [""; "majority"]
           then Ok (mongodriver.New mongodriver.WMajority)
           else match Atoi w with
                | Err err => Err (String.append "invalid writeConcern value: " err)
                | Ok n => Ok (mongodriver.New (mongodriver.W n))
                end) with
    | Err err => (None, Some err)
    | Ok wc =>
    let q := Del q "writeConcern" in
    (* Journal *)
    let s := ToLower (Get q "journal") in
    match (if one_of s [""; "false"; "0"] then Some wc
           else if one_of s ["true"; "1"] then Some (mongodriver.WithJ true wc)
           else None) with
    | None => (None, Some "unknown journal value")
    | Some wc =>
    let q := Del q "journal" in
    (* FSync: accepted and ignored, with a note in the log when set *)
    let s := ToLower (Get q "fsync") in
    if negb (one_of s [""; "false"; "0"] || one_of s ["true"; "1"])
    then (None, Some "unknown fsync value")
    else
    let q := Del q "fsync" in
    (* Clean up the URL for MongoDB *)
    let endpoint := set_RawQuery q endpoint in
    let clientOpts :=
      {| mongodriver.opt_uri := endpoint; mongodriver.opt_wc := wc;
         mongodriver.opt_rc := rc |} in
    match mongodriver.Connect drv Background clientOpts with
    | Err err => (None, Some err)
    | Ok client =>
        match mongodriver.Ping drv client Background with
        | Some err => (None, Some err)
        | None =>
            let collection :=
              {| mongodriver.coll_client := client;
                 mongodriver.coll_db := dbName;
                 mongodriver.coll_name := tableName |} in
            (Some {| Client := client; Collection := collection |}, None)
        end
    end
    end
    end
    end.

End mongo.

(** ** The two providers behind one contract *)

Inductive Provider : Type :=
| Postgres (p : postgres.FuncProvider)
| Mongo (p : mongo.FuncProvider).

Definition call {G R : Type} `{Generator G} `{RandSource R} `{Randomiser R}
  (p : Provider) (o : Op) : M G R bool :=
  match p with
  | Postgres pg => postgres.call pg o
  | Mongo mg => mongo.call mg o
  end.

(** The events a call adds to the trace. *)
Definition emitted {G R : Type} (w w' : World G R) : list Event :=
  drop (length (trace w)) (trace w').

Definition is_driver_call (e : Event) : bool :=
  match e with
  | EExec _ _ _ | EQuery _ _ _ => true
  | _ => false
  end.

Definition context_of (e : Event) : option Context :=
  match e with
  | EExec c _ _ | EQuery c _ _ => Some c
  | _ => None
  end.


Definition is_log (e : Event) : bool :=
  match e with
  | ELog _ => true
  | _ => false
  end.

Definition is_decode (e : Event) : bool :=
  match e with
  | EDecode _ => true
  | _ => false
  end.

(** The world after a call that only added [evs] to the trace. *)
Definition with_trace {G R : Type} (w : World G R) (evs : list Event)
  : World G R :=
  mkWorld (data w) (gen w) (rnd w) (rows w) (env w) (trace w ++ evs).

(** The record InsertRecord hands to the backend: the template after
    [data.Randomise(rnd)], with the identifier [id.GetNew()] returns. *)
Definition fresh_record {G R : Type} `{Generator G} `{Randomiser R}
  (w : World G R) : Person :=
  set_ID (fst (GetNew (gen w))) (fst (Randomise (data w) (rnd w))).

(** The contexts of the driver calls among [evs]. *)
Definition contexts (evs : list Event) : list Context := omap context_of evs.

(** The documents decoded among [evs]. *)
Definition decoded (evs : list Event) : list Doc :=
  omap (fun e => match e with EDecode d => Some d | _ => None end) evs.

(** Whether a driver call made under [c] goes through. *)
Definition accepted (c : Context) (e : Env) : bool := negb (notNil (refusal c e)).

(** What an update may do to a stored document: nothing, or write
    [balance] on a document with the identifier [id]. *)
Definition balance_write (id : uint64) (f : float32) (d d' : Doc) : Prop :=
  d' = d
  \/ (d_id d = id /\ d_balance d' = VNum f
      /\ d_id d' = d_id d /\ d_age d' = d_age d
      /\ d_name d' = d_name d /\ d_padding d' = d_padding d).


(** The same world with a backend that answers after [t]. *)
Definition set_latency {G R : Type} (t : Z) (w : World G R) : World G R :=
  mkWorld (data w) (gen w) (rnd w) (rows w)
    {| latency := t; fault := fault (env w);
       write_lands := write_lands (env w);
       scan_fault := scan_fault (env w); next_fault := next_fault (env w) |}
    (trace w).


(** Whether a stored document decodes to a [Person]. *)
Definition decodes (d : Doc) : bool :=
  match Unmarshal d with
  | Ok _ => true
  | Err _ => false
  end.

(** [v] is the largest identifier stored in [l]. *)
Definition is_max_id (v : uint64) (l : list Doc) : Prop :=
  (exists d, d ∈ l /\ d_id d = v) /\ forall d, d ∈ l -> (d_id d <= v)%N.

(** The driver cannot deliver the newest document: the call fails or
    expires, or the row cannot be fetched or, with pgx, converted. *)
Definition mongo_unreachable (e : Env) : bool :=
  notNil (refusal mongo.ctx e) || notNil (next_fault e 0).

Definition postgres_unreachable (e : Env) : bool :=
  notNil (refusal Background e) || notNil (next_fault e 0)
  || notNil (scan_fault e 0).

(** [err == nil] for the pair of a fallible call. *)
Definition isOk {A : Type} (r : result A) : bool :=
  match r with
  | Ok _ => true
  | Err _ => false
  end.

(** An optional sign followed by at least one decimal digit. *)
Definition is_integer (s : string) : bool :=
  let body := snd (split_sign s) in
  negb (String.eqb body "")
  && forallb (fun c => bool_decide (is_Some (digit c)))
       (list_ascii_of_string body).

(** The keys NewProvider of the Mongo provider reads from the query. *)
Definition recognized : list string :=
  ["readConcern"; "writeConcern"; "journal"; "fsync"].

(** Two URLs that differ at most in their query. *)
Definition same_server (u v : URL) : Prop :=
  Scheme u = Scheme v /\ Host u = Host v /\ Path u = Path v.

(** A value NewProvider of the Mongo provider reads from the query of
    the endpoint, in lower case as the switches compare it. *)
Definition setting `{CaseTable} (endpoint : URL) (key : string) : string :=
  ToLower (Get (RawQuery endpoint) key).

(** The endpoints that pass validation, every value read in lower case:
    a database name, a known read concern, a write concern that is
    empty, majority or a decimal number that fits an [int], and journal
    and fsync flags that are empty or boolean. *)
Definition valid_endpoint `{CaseTable} (endpoint : URL) : bool :=
  negb (String.eqb (TrimPrefix (Path endpoint) "/") "")
  && one_of (setting endpoint "readConcern")
       [""; "majority"; "local"; "linearizable"]
  && (one_of (setting endpoint "writeConcern") [""; "majority"]
      || isOk (Atoi (setting endpoint "writeConcern")))
  && one_of (setting endpoint "journal") [""; "false"; "0"; "true"; "1"]
  && one_of (setting endpoint "fsync") [""; "false"; "0"; "true"; "1"].

(** A backend that answers every call without error and within the ten
    seconds the Mongo provider allows. *)
Definition no_faults (e : Env) : Prop :=
  fault e = None /\ (latency e <= 10 * Second)%Z
  /\ (forall i, next_fault e i = None) /\ (forall i, scan_fault e i = None).

(** The first stored document under an identifier: the row of
    [SELECT ... WHERE data->'id'=$1] that QueryRow keeps, the document
    FindOne returns. *)
Definition lookup_id (id : uint64) (l : list Doc) : option Doc :=
  head (answer (Select (MatchID id)) l).

(** A call that left the stored documents, the record template, the
    randomness source and the backend as they were. *)
Definition untouched {G R : Type} (w w' : World G R) : Prop :=
  rows w' = rows w /\ data w' = data w /\ rnd w' = rnd w /\ env w' = env w.

(** The identifiers stored, in order. *)
Definition ids (l : list Doc) : list uint64 := List.map d_id l.

(** The log lines among [evs], each with its arguments. *)
Definition logs (evs : list Event) : list (list LogArg) :=
  omap (fun e => match e with ELog args => Some args | _ => None end) evs.

(** ** Concrete collaborators *)

Module demo.

(** A generator that counts up from its high-water mark and samples
    below it with a linear congruential sequence. *)
Record Counter : Type := {
  hwm : uint64;
  seed : uint64
}.

#[global] Instance Counter_Generator : Generator Counter := {|
  GetNew g := ((hwm g + 1)%N, {| hwm := (hwm g + 1)%N; seed := seed g |});
  GetExisting g :=
    ((if (hwm g =? 0)%N then 0 else 1 + seed g mod hwm g)%N,
     {| hwm := hwm g;
        seed := ((seed g * 6364136223846793005 + 1442695040888963407)
                 mod 2 ^ 64)%N |})
|}.

(** A randomness source that replays recorded draws, each brought
    below the bit pattern of [1.0]. *)
Definition replay (r : list N) : float32 * list N :=
  match r with
  | x :: tl => ((x mod one_bits)%N, tl)
  | [] => (0%N, [])
  end.

#[global] Instance replay_RandSource : RandSource (list N) := {|
  Float32 := replay;
  Float32_range r :=
    match r return (fst (replay r) < one_bits)%N with
    | x :: _ => N.mod_lt x one_bits ltac:(discriminate)
    | [] => eq_refl
    end
|}.

(** A fragment of the case tables: the two runes above ASCII whose lower
    case is an ASCII letter, the dotted capital I (U+0130) and the Kelvin
    sign (U+212A); every other rune is kept. *)
Definition latin : CaseTable := {|
  lower_case r := (if r =? 304 then 105 else if r =? 8490 then 107 else r)%N
|}.

(** A randomiser that takes the age and the bits of the balance from the
    next two draws. *)
#[global] Instance replay_Randomiser : Randomiser (list N) := {|
  Randomise p r :=
    match r with
    | a :: b :: tl =>
        ({| ID := ID p; Name := "name"; Age := Z.of_N (a mod 101);
            Balance := b; Padding := Padding p |}, tl)
    | _ => (p, r)
    end
|}.

Definition healthy : Env :=
  {| latency := 1000000; fault := None; write_lands := false;
     scan_fault := fun _ => None; next_fault := fun _ => None |}.

Definition slow : Env :=
  {| latency := 11 * Second; fault := None; write_lands := false;
     scan_fault := fun _ => None; next_fault := fun _ => None |}.


Definition world (table : list Doc) (e : Env) (top : uint64) (draws : list N)
  : World Counter (list N) :=
  mkWorld zero_Person {| hwm := top; seed := 0 |} draws table e [].

Definition person (id : uint64) (age : Z) : Doc :=
  {| d_id := id; d_age := age; d_balance := VNum 0; d_name := VStr "name";
     d_padding := VStr "" |}.


Definition pg : postgres.FuncProvider :=
  {| postgres.DB :=
       {| pgxpool.pool_config :=
            {| pgxpool.ConnString :=
                 {| Scheme := "postgres"; Host := "localhost";
                    Path := "/test"; RawQuery := ∅ |} |} |};
     postgres.TableName := "people" |}.

Definition mongo_client : mongodriver.Client :=
  {| mongodriver.client_opts :=
       {| mongodriver.opt_uri :=
            {| Scheme := "mongodb"; Host := "127.0.0.1:27017";
               Path := "/test"; RawQuery := ∅ |};
          mongodriver.opt_wc := mongodriver.New mongodriver.WMajority;
          mongodriver.opt_rc := mongodriver.Majority |} |}.

Definition mg : mongo.FuncProvider :=
  {| mongo.Client := mongo_client;
     mongo.Collection :=
       {| mongodriver.coll_client := mongo_client;
          mongodriver.coll_db := "test";
          mongodriver.coll_name := "people" |} |}.

(** A Mongo server that is up: every connection and every ping succeed. *)
Definition mongo_up : mongodriver.Driver :=
  {| mongodriver.Connect := fun _ opts => Ok {| mongodriver.client_opts := opts |};
     mongodriver.Ping := fun _ _ => None |}.

(** [mongodb://127.0.0.1:27017/test?readConcern=MAJORITY] *)
Definition shouting : URL :=
  {| Scheme := "mongodb"; Host := "127.0.0.1:27017"; Path := "/test";
     RawQuery := {[ "readConcern" := ["MAJORITY"] ]} |}.

(** A backend whose result sets break after the first row. *)
Definition flaky : Env :=
  {| latency := 1000000; fault := None; write_lands := false;
     scan_fault := fun _ => None;
     next_fault := fun i => match i with
                            | 1%nat => Some "connection reset by peer"
                            | _ => None
                            end |}.

(** [mongodb://127.0.0.1:27017/test?fsync=TRUE&w=1] *)
Definition synced : URL :=
  {| Scheme := "mongodb"; Host := "127.0.0.1:27017"; Path := "/test";
     RawQuery := {[ "fsync" := ["TRUE"]; "w" := ["1"] ]} |}.

(** [mongodb://127.0.0.1:27017/test?writeConcern=two] *)
Definition worded : URL :=
  {| Scheme := "mongodb"; Host := "127.0.0.1:27017"; Path := "/test";
     RawQuery := {[ "writeConcern" := ["two"] ]} |}.

(** [mongodb://127.0.0.1:27017/test?readConcern=Local&journal=1&appName=bench] *)
Definition tuned : URL :=
  {| Scheme := "mongodb"; Host := "127.0.0.1:27017"; Path := "/test";
     RawQuery := {[ "readConcern" := ["Local"]; "journal" := ["1"];
                    "appName" := ["bench"] ]} |}.

(** [mongodb://127.0.0.1:27017/test?readConcern=MAJORİTY], with the
    dotted capital I (U+0130, the bytes 196 and 176). *)
Definition dotted : URL :=
  {| Scheme := "mongodb"; Host := "127.0.0.1:27017"; Path := "/test";
     RawQuery := {[ "readConcern" := ["MAJORİTY"] ]} |}.

End demo.

(** * Properties *)

(** Symbolic execution of a provider method on a world. *)
Ltac exec :=
  repeat first
    [ progress cbn [bind ret panic emit set_rows ask Println fst snd
                    data gen rnd rows env trace
                    latency fault write_lands scan_fault next_fault] in *
    | progress unfold bind, ret, panic, emit, set_rows, ask, Println, decode,
        data_Randomise, data_set_ID, id_GetNew, id_GetExisting, rnd_Float32,
        postgres.applied in *
    | case_match; simplify_eq ].

(** Reads off the events added to a trace [trace w ++ e1 ++ ... ++ en]. *)
Ltac read_trace :=
  unfold emitted, with_trace; cbn [fst snd trace];
  rewrite <- ?app_assoc; rewrite ?drop_app_length; cbn [app].

(** Rewrites with the equations the execution has collected. *)
Ltac settle :=
  repeat match goal with
         | E : ?x = _ |- context [?x] => rewrite E
         end;
  cbn [notNil orb negb andb].

Section Properties.
Context {G R : Type} `{Generator G} `{RandSource R} `{Randomiser R}.
Implicit Types (w : World G R) (evs : list Event) (l pending : list Doc).


Lemma with_trace_nil w : with_trace w [] = w.
Proof. destruct w. unfold with_trace. cbn. by rewrite app_nil_r. Qed.



Lemma contexts_none evs :
  existsb is_driver_call evs = false -> contexts evs = [].
Proof.
  induction evs as [|e evs IH]; [done|].
  cbn. intros [He Hevs]%orb_false_iff. destruct e; try done; by apply IH.
Qed.


Lemma contexts_query c t q evs :
  contexts (EQuery c t q :: evs) = c :: contexts evs.
Proof. done. Qed.


(** The loop of the Postgres ReadRange returns, adds only decodes and log
    lines to the trace, and returns false exactly when it logged. *)
Lemma scan_loop_returns pending : forall i w,
  exists b evs,
    postgres.scan_loop i pending w = (Returned b, with_trace w evs)
    /\ b = negb (existsb is_log evs)
    /\ existsb is_driver_call evs = false.
Proof.
  induction pending as [|d rest IH]; intros i w.
  - exists true, []. by rewrite with_trace_nil.
  - cbn [postgres.scan_loop]. exec.
    + exists true, []. by rewrite with_trace_nil.
    + by exists false, [ELog [LErr s]].
    + destruct (IH (S i) (with_trace w [EDecode d])) as (b & evs & E & Hb & Hc).
      exists b, (EDecode d :: evs). unfold with_trace in E |- *. cbn in E |- *.
      rewrite E, <- app_assoc. done.
    + exists false, [EDecode d; ELog [LErr e]].
      unfold with_trace. cbn. by rewrite <- app_assoc.
Qed.

(** The same for the loop of the Mongo ReadRange. *)
Lemma cursor_loop_returns pending : forall i w,
  exists b evs,
    mongo.cursor_loop i pending w = (Returned b, with_trace w evs)
    /\ b = negb (existsb is_log evs)
    /\ existsb is_driver_call evs = false.
Proof.
  induction pending as [|d rest IH]; intros i w.
  - exists true, []. by rewrite with_trace_nil.
  - cbn [mongo.cursor_loop]. exec.
    + by exists false, [ELog [LErr s]].
    + destruct (IH (S i) (with_trace w [EDecode d])) as (b & evs & E & Hb & Hc).
      exists b, (EDecode d :: evs). unfold with_trace in E |- *. cbn in E |- *.
      rewrite E, <- app_assoc. done.
    + exists false, [EDecode d; ELog [LErr e]].
      unfold with_trace. cbn. by rewrite <- app_assoc.
Qed.

(** A draw of [rnd.Float32()] is a finite number. *)
Lemma Float32_finite (r : R) : IsFinite (fst (Float32 r)) = true.
Proof.
  pose proof (Float32_range r) as Hlt. unfold one_bits in Hlt.
  unfold IsFinite, exponent. apply negb_true_iff, N.eqb_neq.
  rewrite N.shiftr_div_pow2. change 255%N with (N.ones 8) at 1.
  rewrite N.land_ones.
  assert (fst (Float32 r) / 2 ^ 23 < 127)%N as Hq.
  { apply N.Div0.div_lt_upper_bound.
    by change (2 ^ 23 * 127)%N with 1065353216%N. }
  rewrite N.mod_small; [lia|]. change (2 ^ 8)%N with 256%N. lia.
Qed.

Lemma update_all_no_match f v l :
  existsb (matches f) l = false -> update_all f v l = l.
Proof.
  induction l as [|d l IH]; cbn; [done|].
  intros [Hd Hl]%orb_false_iff. rewrite Hd. f_equal. by apply IH.
Qed.

Lemma update_first_no_match f v l :
  existsb (matches f) l = false -> update_first f v l = l.
Proof.
  induction l as [|d l IH]; cbn; [done|].
  intros [Hd Hl]%orb_false_iff. rewrite Hd. f_equal. by apply IH.
Qed.

Lemma update_all_frame id f l :
  Forall2 (balance_write id f) l (update_all (MatchID id) (VNum f) l).
Proof.
  induction l as [|d l IH]; cbn; constructor; [|done].
  destruct (N.eqb_spec (d_id d) id); [by right | by left].
Qed.

Lemma balance_write_refl id f l : Forall2 (balance_write id f) l l.
Proof. induction l; constructor; [by left | done]. Qed.

Lemma update_first_frame id f l :
  Forall2 (balance_write id f) l (update_first (MatchID id) (VNum f) l).
Proof.
  induction l as [|d l IH]; cbn; [constructor|].
  destruct (N.eqb_spec (d_id d) id); constructor; try done.
  - by right.
  - apply balance_write_refl.
  - by left.
Qed.

(** C2 (amended). UpdateRecord never panics and returns the verdict of
    its one driver call: true when the call goes through, false when it
    comes back with an error, which for Mongo includes an identifier
    above [math.MaxInt64] that the driver cannot encode. Whether an
    entity matched the sampled identifier plays no part: when none
    matches, the call still goes through and the stored entities are
    left as they were. *)
Theorem UpdateRecord_returns_driver_verdict
  (pg : postgres.FuncProvider) (mg : mongo.FuncProvider) w :
  let id := fst (GetExisting (gen w)) in
  fst (postgres.UpdateRecord pg w) = Returned (accepted Background (env w))
  /\ fst (mongo.UpdateRecord mg w)
     = Returned ((id <=? MaxInt64)%N && accepted mongo.ctx (env w))
  /\ (existsb (matches (MatchID id)) (rows w) = false ->
      rows (snd (postgres.UpdateRecord pg w)) = rows w
      /\ rows (snd (mongo.UpdateRecord mg w)) = rows w).
Proof.
  cbv zeta. unfold accepted. rewrite N.leb_antisym.
  pose proof (Float32_finite (rnd w)) as Hfin.
  repeat split.
  - unfold postgres.UpdateRecord, postgres.Exec.
    exec; cbn [fst snd notNil negb andb] in *; settle; congruence.
  - unfold mongo.UpdateRecord, mongo.UpdateOne.
    exec; cbn [fst snd notNil negb andb] in *; settle; congruence.
  - unfold postgres.UpdateRecord, postgres.Exec.
    exec; cbn [fst snd rows] in *; try done; by apply update_all_no_match.
  - unfold mongo.UpdateRecord, mongo.UpdateOne.
    exec; cbn [fst snd rows] in *; try done; by apply update_first_no_match.
Qed.

(** C8. UpdateRecord of either backend leaves the stored entities as
    they were except for the balance of entities that carry the sampled
    identifier, which it may set to the value drawn from the supplied
    randomness source; it draws that one value and does not touch the
    record template. *)
Theorem UpdateRecord_writes_only_balance
  (pg : postgres.FuncProvider) (mg : mongo.FuncProvider) w :
  let id := fst (GetExisting (gen w)) in
  let f := fst (Float32 (rnd w)) in
  let w_pg := snd (postgres.UpdateRecord pg w) in
  let w_mg := snd (mongo.UpdateRecord mg w) in
  Forall2 (balance_write id f) (rows w) (rows w_pg)
  /\ Forall2 (balance_write id f) (rows w) (rows w_mg)
  /\ rnd w_pg = snd (Float32 (rnd w)) /\ rnd w_mg = snd (Float32 (rnd w))
  /\ data w_pg = data w /\ data w_mg = data w.
Proof.
  cbv zeta. repeat split.
  - unfold postgres.UpdateRecord, postgres.Exec. exec; cbn [fst snd rows];
      first [apply update_all_frame | apply balance_write_refl].
  - unfold mongo.UpdateRecord, mongo.UpdateOne. exec; cbn [fst snd rows];
      first [apply update_first_frame | apply balance_write_refl].
  - unfold postgres.UpdateRecord, postgres.Exec. by exec.
  - unfold mongo.UpdateRecord, mongo.UpdateOne. by exec.
  - unfold postgres.UpdateRecord, postgres.Exec. by exec.
  - unfold mongo.UpdateRecord, mongo.UpdateOne. by exec.
Qed.

Lemma Marshal_Ok p d : Marshal p = Ok d -> d = encode p.
Proof. unfold Marshal. case_match; congruence. Qed.


Lemma refusal_timeout (e : Env) :
  (10 * Second < latency e)%Z -> refusal mongo.ctx e = Some DeadlineExceeded.
Proof.
  intros Hl. unfold refusal, mongo.ctx. cbn [Deadline].
  by destruct (Z.ltb_spec (10 * Second) (latency e)); [|lia].
Qed.

Lemma scan_loop_latency t pending : forall i w,
  postgres.scan_loop i pending (set_latency t w)
  = (fst (postgres.scan_loop i pending w),
     set_latency t (snd (postgres.scan_loop i pending w))).
Proof.
  induction pending as [|d rest IH]; intros i [dt g r ro e tr]; [done|].
  cbn [postgres.scan_loop]. unfold set_latency in *.
  cbn [data gen rnd rows env trace next_fault scan_fault fault] in *.
  exec; try done.
  exact (IH (S i) (mkWorld dt g r ro e (tr ++ [EDecode d]))).
Qed.

(** C3 (amended). Every operation of the Mongo provider makes its one
    driver call under a context that expires after ten seconds, and when
    the backend takes longer the operation returns false; it does not
    panic. The operations of the Postgres provider make their driver
    calls under [context.Background()], which never expires: their
    outcome does not depend on how long the backend takes. *)
Theorem Mongo_calls_expire_Postgres_calls_do_not
  (pg : postgres.FuncProvider) (mg : mongo.FuncProvider) (o : Op) w :
  Deadline mongo.ctx = Some (10 * Second)%Z
  /\ contexts (emitted w (snd (mongo.call mg o w))) = [mongo.ctx]
  /\ ((10 * Second < latency (env w))%Z ->
      fst (mongo.call mg o w) = Returned false)
  /\ Deadline Background = None
  /\ Forall (fun c => c = Background)
       (contexts (emitted w (snd (postgres.call pg o w))))
  /\ (forall t, fst (postgres.call pg o (set_latency t w))
               = fst (postgres.call pg o w)).
Proof.
  split; [done|]. split; [|split; [|split; [done|split]]].
  - destruct o; cbn [mongo.call].
    + unfold mongo.InsertRecord, mongo.InsertOne. exec; by read_trace.
    + unfold mongo.UpdateRecord, mongo.UpdateOne. exec; by read_trace.
    + unfold mongo.ReadRecord, mongo.FindOne, mongo.Decode. exec; by read_trace.
    + unfold mongo.ReadRange, mongo.Find. exec; [by read_trace|].
      match goal with |- context [mongo.cursor_loop ?i ?l ?w0] =>
        destruct (cursor_loop_returns l i w0) as (b & evs & E & _ & Hc) end.
      rewrite E. unfold with_trace. read_trace.
      by rewrite contexts_query, (contexts_none _ Hc).
    + unfold mongo.ReadMostRecentRecord, mongo.FindOne, mongo.Decode.
      exec; by read_trace.
  - intros Hl%refusal_timeout. destruct o; cbn [mongo.call].
    + unfold mongo.InsertRecord, mongo.InsertOne. exec; congruence.
    + unfold mongo.UpdateRecord, mongo.UpdateOne. exec; congruence.
    + unfold mongo.ReadRecord, mongo.FindOne, mongo.Decode. exec; congruence.
    + unfold mongo.ReadRange, mongo.Find. exec; congruence.
    + unfold mongo.ReadMostRecentRecord, mongo.FindOne, mongo.Decode.
      exec; congruence.
  - destruct o; cbn [postgres.call].
    + unfold postgres.InsertRecord, postgres.Exec. exec; read_trace;
        repeat constructor.
    + unfold postgres.UpdateRecord, postgres.Exec. exec; read_trace;
        repeat constructor.
    + unfold postgres.ReadRecord, postgres.QueryRow, postgres.Scan.
      exec; read_trace; repeat constructor.
    + unfold postgres.ReadRange, postgres.Query. exec;
        [read_trace; repeat constructor|].
      match goal with |- context [postgres.scan_loop ?i ?l ?w0] =>
        destruct (scan_loop_returns l i w0) as (b & evs & E & _ & Hc) end.
      rewrite E. unfold with_trace. read_trace.
      rewrite contexts_query, (contexts_none _ Hc). repeat constructor.
    + unfold postgres.ReadMostRecentRecord, postgres.QueryRow, postgres.Scan.
      exec; read_trace; repeat constructor.
  - intros t. destruct o; cbn [postgres.call].
    + unfold postgres.InsertRecord, postgres.Exec, set_latency, refusal.
      cbn [Deadline]. exec; cbn [fault] in *; congruence.
    + unfold postgres.UpdateRecord, postgres.Exec, set_latency, refusal.
      cbn [Deadline]. exec; cbn [fault] in *; congruence.
    + unfold postgres.ReadRecord, postgres.QueryRow, postgres.Scan,
        set_latency, refusal.
      cbn [Deadline]. exec; cbn [fault scan_fault next_fault] in *; congruence.
    + unfold postgres.ReadRange, postgres.Query, refusal. cbn [Deadline].
      unfold set_latency at 1. exec; cbn [fault] in *; try congruence.
      pose proof (scan_loop_latency t
                    (answer (Select (MatchAge 45 75)) (rows w)) 0
                    (with_trace w [EQuery Background (postgres.TableName pg)
                                     (Select (MatchAge 45 75))])) as E.
      unfold set_latency, with_trace in E.
      cbn [data gen rnd rows env trace] in E.
      match goal with Hf : fault (env w) = None |- _ => rewrite Hf in E end.
      by rewrite E.
    + unfold postgres.ReadMostRecentRecord, postgres.QueryRow, postgres.Scan,
        set_latency, refusal.
      cbn [Deadline]. exec; cbn [fault scan_fault next_fault] in *; congruence.
Qed.

Lemma newest_None l : newest l = None -> l = [].
Proof. destruct l as [|d l]; [done|]. cbn. repeat case_match; done. Qed.

Lemma newest_is_max l m : newest l = Some m -> is_max_id (d_id m) l.
Proof.
  revert m. induction l as [|d l IH]; intros m; cbn; [done|].
  destruct (newest l) as [m'|] eqn:E.
  - destruct (IH m' eq_refl) as [(d0 & Hin & Hid) Hle].
    destruct (N.ltb_spec (d_id d) (d_id m')); intros [= <-]; split.
    + exists d0. split; [by right | done].
    + intros x [->|Hx]%elem_of_cons; [lia | by apply Hle].
    + exists d. split; [by left | done].
    + intros x [->|Hx]%elem_of_cons; [lia|]. specialize (Hle x Hx). lia.
  - apply newest_None in E as ->. intros [= <-]. split.
    + exists d. split; [by left | done].
    + intros x [->|Hx]%elem_of_cons; [lia|]. by apply elem_of_nil in Hx.
Qed.

Lemma is_max_id_unique v v' l : is_max_id v l -> is_max_id v' l -> v = v'.
Proof.
  intros [(d & Hd & <-) Hle] [(d' & Hd' & <-) Hle'].
  specialize (Hle d' Hd'). specialize (Hle' d Hd). lia.
Qed.

(** What the two GetMaxID compute. *)
Lemma mongo_GetMaxID_run (mg : mongo.FuncProvider) w :
  fst (mongo.GetMaxID mg w)
  = Returned
      match refusal mongo.ctx (env w), newest (rows w), next_fault (env w) 0
      with
      | Some e, _, _ => (0%N, Some (String.append "no existing data? " e))
      | None, None, _ =>
          (0%N, Some (String.append "no existing data? " mongo.ErrNoDocuments))
      | None, Some _, Some e =>
          (0%N, Some (String.append "no existing data? " e))
      | None, Some d, None => (d_id d, None)
      end.
Proof. unfold mongo.GetMaxID, mongo.FindOne, answer. by exec. Qed.

Lemma postgres_GetMaxID_run (pg : postgres.FuncProvider) w :
  fst (postgres.GetMaxID pg w)
  = Returned
      match refusal Background (env w), newest (rows w),
            next_fault (env w) 0, scan_fault (env w) 0
      with
      | Some e, _, _, _ => (0%N, Some (postgres.no_existing_data (Some e) 0))
      | None, None, _, _ =>
          (0%N, Some (postgres.no_existing_data (Some postgres.ErrNoRows) 0))
      | None, Some _, Some e, _
      | None, Some _, None, Some e =>
          (0%N, Some (postgres.no_existing_data (Some e) 0))
      | None, Some d, None, None =>
          if (d_id d =? 0)%N
          then (0%N, Some (postgres.no_existing_data None 0))
          else (d_id d, None)
      end.
Proof.
  unfold postgres.GetMaxID, postgres.QueryRow, postgres.Scan, answer.
  exec; cbn [notNil orb] in *; simplify_eq; try done.
  all: repeat match goal with
         | E : (_ =? _)%N = true |- _ => apply N.eqb_eq in E; rewrite E
         end; done.
Qed.

(** C5 (amended). GetMaxID never panics. When it returns no error, the
    value is the largest identifier stored, the backend is not empty and
    the driver delivered the row. When it returns an error the value is
    0, and the backend is empty or the driver failed; for Postgres there
    is a third cause, a largest stored identifier of 0, and because of it
    the Postgres value is never 0 without an error. *)
Theorem GetMaxID_max_or_error
  (pg : postgres.FuncProvider) (mg : mongo.FuncProvider) w :
  match fst (mongo.GetMaxID mg w) with
  | Returned (v, None) =>
      is_max_id v (rows w) /\ mongo_unreachable (env w) = false
  | Returned (v, Some _) =>
      v = 0%N /\ (rows w = [] \/ mongo_unreachable (env w) = true)
  | Panicked _ => False
  end
  /\ match fst (postgres.GetMaxID pg w) with
     | Returned (v, None) =>
         is_max_id v (rows w) /\ postgres_unreachable (env w) = false
         /\ v <> 0%N
     | Returned (v, Some _) =>
         v = 0%N
         /\ (rows w = [] \/ postgres_unreachable (env w) = true
             \/ is_max_id 0 (rows w))
     | Panicked _ => False
     end.
Proof.
  rewrite mongo_GetMaxID_run, postgres_GetMaxID_run.
  unfold mongo_unreachable, postgres_unreachable.
  destruct (refusal mongo.ctx (env w)) as [e1|];
    destruct (refusal Background (env w)) as [e2|];
    destruct (newest (rows w)) as [d|] eqn:En;
    destruct (next_fault (env w) 0) as [e3|];
    destruct (scan_fault (env w) 0) as [e4|];
    try destruct (N.eqb_spec (d_id d) 0) as [Ez|Ez];
    cbn [notNil orb];
    try apply newest_is_max in En; try apply newest_None in En;
    try rewrite Ez in *;
    split_and?; auto.
Qed.

(** C9. The two GetMaxID differ when the largest stored identifier is 0.
    The Postgres one never returns [(0, nil)]; with a backend that is
    reachable and whose largest identifier is 0 (so a row with identifier
    0 exists) it returns an error, while the Mongo one returns [(0, nil)]
    there. *)
Theorem GetMaxID_differ_at_zero
  (pg : postgres.FuncProvider) (mg : mongo.FuncProvider) w :
  fst (postgres.GetMaxID pg w) <> Returned (0%N, None)
  /\ (is_max_id 0 (rows w) ->
      mongo_unreachable (env w) = false ->
      postgres_unreachable (env w) = false ->
      fst (mongo.GetMaxID mg w) = Returned (0%N, None)
      /\ exists e, fst (postgres.GetMaxID pg w) = Returned (0%N, Some e)).
Proof.
  rewrite mongo_GetMaxID_run, postgres_GetMaxID_run.
  unfold mongo_unreachable, postgres_unreachable. split.
  - repeat case_match; try done.
    intros [= Ez]. by rewrite Ez, N.eqb_refl in *.
  - intros Hmax
      [Hm Hn]%orb_false_iff [[Hp _]%orb_false_iff Hs]%orb_false_iff.
    destruct (refusal mongo.ctx (env w)); [done|].
    destruct (refusal Background (env w)); [done|].
    destruct (next_fault (env w) 0); [done|].
    destruct (scan_fault (env w) 0); [done|].
    destruct (newest (rows w)) as [d|] eqn:En.
    + apply newest_is_max in En.
      rewrite (is_max_id_unique _ _ _ En Hmax). cbn. eauto.
    + apply newest_None in En. destruct Hmax as [(d & Hd & _) _].
      rewrite En in Hd. by apply elem_of_nil in Hd.
Qed.








(** A difference between the backends: when fetching a row fails, the
    loop of the Postgres ReadRange ends as at the end of the rows and
    returns true, because [rows.Err()] is never read, while the Mongo
    loop reads [cursor.Err()] and returns false. *)
Lemma fetch_error_is_silent_in_postgres d rest w e :
  next_fault (env w) 0 = Some e ->
  fst (postgres.scan_loop 0 (d :: rest) w) = Returned true
  /\ fst (mongo.cursor_loop 0 (d :: rest) w) = Returned false.
Proof.
  intros Hn. cbn [postgres.scan_loop mongo.cursor_loop]. by exec.
Qed.

End Properties.

(** ** Construction of the providers *)


Lemma digits_not_decimal (s : string) : forall acc,
  forallb (fun c => bool_decide (is_Some (digit c))) (list_ascii_of_string s)
  = false ->
  digits acc s = None.
Proof.
  induction s as [|c s IH]; intros acc; cbn; [done|].
  destruct (digit c) as [d|]; [|done].
  rewrite bool_decide_true by eauto. cbn. apply IH.
Qed.

Lemma Atoi_not_integer (s : string) :
  is_integer s = false -> exists e, Atoi s = Err e.
Proof.
  unfold is_integer, Atoi. destruct (split_sign s) as [neg body]. cbn [snd].
  destruct body as [|c body]; [by eexists|].
  cbn [String.eqb negb andb]. intros Hd.
  rewrite (digits_not_decimal _ 0%Z Hd). by eexists.
Qed.


Lemma one_of_app s l1 l2 : one_of s (l1 ++ l2) = one_of s l1 || one_of s l2.
Proof. apply existsb_app. Qed.

Lemma Get_Del_ne (q : Values) k k' : k <> k' -> Get (Del q k) k' = Get q k'.
Proof. intros Hne. unfold Get, Del. by rewrite lookup_delete_ne. Qed.

Lemma lookup_Del (q : Values) k k' :
  Del q k !! k' = if bool_decide (k' = k) then None else q !! k'.
Proof.
  unfold Del. case_bool_decide as E.
  - subst. apply lookup_delete_eq.
  - by apply lookup_delete_ne.
Qed.

Lemma lookup_stripped (q : Values) key :
  Del (Del (Del (Del q "readConcern") "writeConcern") "journal") "fsync"
    !! key
  = if bool_decide (key ∈ recognized) then None else q !! key.
Proof.
  rewrite !lookup_Del. unfold recognized.
  repeat case_bool_decide; try done; subst; exfalso;
    repeat match goal with
           | Hin : _ ∈ _ :: _ |- _ => apply elem_of_cons in Hin as [?|Hin]
           | Hin : _ ∈ [] |- _ => by apply elem_of_nil in Hin
           | Hout : ¬ (_ ∈ _) |- _ => apply Hout; clear Hout
           end; try done; repeat first [by left | right].
Qed.

Lemma switch_disjoint (s : string) :
  one_of s [""; "false"; "0"] = true -> one_of s ["true"; "1"] = false.
Proof.
  unfold one_of. cbn [existsb].
  destruct (String.eqb_spec s "") as [->|_]; [done|].
  destruct (String.eqb_spec s "false") as [->|_]; [done|].
  destruct (String.eqb_spec s "0") as [->|_]; done.
Qed.

(** Walks through the four switches of the Mongo NewProvider in the
    order of the code; every refusal is closed on the way, and [fin]
    gets the endpoints that reach the connection. *)
Ltac walk_switches endpoint fin :=
  unfold valid_endpoint, mongo.NewProvider, setting in *;
  rewrite !Get_Del_ne by done;
  change [""; "majority"; "local"; "linearizable"]
    with ([""; "majority"] ++ ["local"] ++ ["linearizable"]);
  change [""; "false"; "0"; "true"; "1"]
    with ([""; "false"; "0"] ++ ["true"; "1"]);
  rewrite !one_of_app;
  set (db := TrimPrefix (Path endpoint) "/");
  set (rc := ToLower (Get (RawQuery endpoint) "readConcern")) in *;
  set (wc := ToLower (Get (RawQuery endpoint) "writeConcern")) in *;
  set (j := ToLower (Get (RawQuery endpoint) "journal"));
  set (fs := ToLower (Get (RawQuery endpoint) "fsync"));
  destruct (String.eqb db "") eqn:Edb; cbn [negb andb]; [by eexists|];
  (destruct (one_of rc [""; "majority"]) eqn:Erc1;
    [|destruct (one_of rc ["local"]) eqn:Erc2;
      [|destruct (one_of rc ["linearizable"]) eqn:Erc3; [|by eexists]]]);
  cbn [orb andb];
  (destruct (one_of wc [""; "majority"]) eqn:Ewc1;
    [|destruct (Atoi wc) eqn:Ewc2; [|by eexists]]);
  cbn [orb andb isOk];
  (destruct (one_of j [""; "false"; "0"]) eqn:Ej1;
    [rewrite ?(switch_disjoint _ Ej1)
    |destruct (one_of j ["true"; "1"]) eqn:Ej2; [|by eexists]]);
  cbn [orb andb];
  (destruct (one_of fs [""; "false"; "0"]) eqn:Efs1;
    [|destruct (one_of fs ["true"; "1"]) eqn:Efs2; [|by eexists]]);
  cbn [orb andb negb];
  cbn [mongodriver.opt_uri mongodriver.opt_rc mongodriver.opt_wc
       mongodriver.wc_w mongodriver.wc_j mongodriver.New
       mongodriver.WithJ set_RawQuery RawQuery];
  fin.

Section Construction.
Context `{CaseTable}.

Lemma absent_setting (endpoint : URL) key :
  RawQuery endpoint !! key = None ->
  one_of (setting endpoint key) [""; "majority"] = true.
Proof. unfold setting, Get. by intros ->. Qed.

(** NewProvider of the Mongo provider refuses an endpoint that does not
    pass validation, whatever the driver would do, and opens a connection
    to the server of any other. *)
Lemma Mongo_NewProvider_runs (endpoint : URL) (tableName : string) :
  if valid_endpoint endpoint
  then
    exists opts,
      (forall drv,
         mongo.NewProvider drv endpoint tableName
         = match mongodriver.Connect drv Background opts with
           | Err e => (None, Some e)
           | Ok client =>
               match mongodriver.Ping drv client Background with
               | Some e => (None, Some e)
               | None =>
                   (Some {| mongo.Client := client;
                            mongo.Collection :=
                              {| mongodriver.coll_client := client;
                                 mongodriver.coll_db :=
                                   TrimPrefix (Path endpoint) "/";
                                 mongodriver.coll_name := tableName |} |},
                    None)
               end
           end)
      /\ same_server (mongodriver.opt_uri opts) endpoint
  else
    exists e,
      forall drv, mongo.NewProvider drv endpoint tableName = (None, Some e).
Proof.
  walk_switches endpoint
    ltac:(eexists; split; [intros drv; reflexivity | done]).
Qed.

(** C6. NewProvider of either backend returns a provider without error or
    an error without provider, never both and never neither. A provider
    is returned only after the connection was opened and pinged: its
    handle is the one the driver gave and answered the ping, and its
    table or collection is the one asked for, and for Mongo the endpoint
    passed validation. Every failure of validating or parsing the
    endpoint, of connecting or of pinging comes back as the error. *)
Theorem NewProvider_all_or_nothing
  (pdrv : pgxpool.Driver) (mdrv : mongodriver.Driver)
  (endpoint : URL) (tableName : string) :
  match postgres.NewProvider pdrv endpoint tableName with
  | (Some p, None) =>
      postgres.TableName p = tableName
      /\ (exists config,
            pgxpool.ParseConfig pdrv endpoint = Ok config
            /\ pgxpool.ConnectConfig pdrv Background config
               = Ok (postgres.DB p))
      /\ pgxpool.Ping pdrv (postgres.DB p) Background = None
  | (None, Some e) =>
      pgxpool.ParseConfig pdrv endpoint = Err e
      \/ exists config,
           pgxpool.ParseConfig pdrv endpoint = Ok config
           /\ (pgxpool.ConnectConfig pdrv Background config = Err e
               \/ exists pool,
                    pgxpool.ConnectConfig pdrv Background config = Ok pool
                    /\ pgxpool.Ping pdrv pool Background = Some e)
  | _ => False
  end
  /\ match mongo.NewProvider mdrv endpoint tableName with
     | (Some p, None) =>
         valid_endpoint endpoint = true
         /\ TrimPrefix (Path endpoint) "/" <> ""
         /\ mongo.Collection p
            = {| mongodriver.coll_client := mongo.Client p;
                 mongodriver.coll_db := TrimPrefix (Path endpoint) "/";
                 mongodriver.coll_name := tableName |}
         /\ (exists opts,
               same_server (mongodriver.opt_uri opts) endpoint
               /\ mongodriver.Connect mdrv Background opts
                  = Ok (mongo.Client p))
         /\ mongodriver.Ping mdrv (mongo.Client p) Background = None
     | (None, Some e) =>
         valid_endpoint endpoint = false
         /\ (forall drv,
               mongo.NewProvider drv endpoint tableName = (None, Some e))
         \/ valid_endpoint endpoint = true
            /\ exists opts,
              same_server (mongodriver.opt_uri opts) endpoint
              /\ (mongodriver.Connect mdrv Background opts = Err e
                  \/ exists client,
                       mongodriver.Connect mdrv Background opts = Ok client
                       /\ mongodriver.Ping mdrv client Background = Some e)
     | _ => False
     end.
Proof.
  split.
  - unfold postgres.NewProvider. repeat case_match; simplify_eq; cbn; eauto 10.
  - pose proof (Mongo_NewProvider_runs endpoint tableName) as Hc.
    destruct (valid_endpoint endpoint) eqn:Ev.
    + destruct Hc as (opts & Hrun & Hsame). rewrite Hrun.
      assert (TrimPrefix (Path endpoint) "/" <> "") as Hdb.
      { intros Hdb. unfold valid_endpoint in Ev. rewrite Hdb in Ev.
        discriminate Ev. }
      destruct (mongodriver.Connect mdrv Background opts) as [client|e] eqn:Ec.
      * destruct (mongodriver.Ping mdrv client Background) as [e|] eqn:Ep;
          cbn; eauto 10.
      * right. eauto 10.
    + destruct Hc as (e & Hrun). rewrite Hrun. by left.
Qed.


(** C10 (amended). NewProvider of the Mongo provider validates the
    endpoint before it connects, reading every value in lower case. An
    endpoint without database name, with a readConcern that is not
    empty, majority, local or linearizable, a writeConcern that is not
    empty, majority or an integer, or a journal or fsync that is not
    empty, true, false, 0 or 1, is refused with an error whatever the
    driver would do. Any other endpoint is connected to with read concern
    and write concern as given, majority when absent, and with the four
    recognized parameters removed from the query and every other
    parameter kept. *)
Theorem NewProvider_validates_endpoint (endpoint : URL) (tableName : string) :
  (is_integer (setting endpoint "writeConcern") = false ->
   isOk (Atoi (setting endpoint "writeConcern")) = false)
  /\ if valid_endpoint endpoint
     then
       exists opts,
         (forall drv,
            mongo.NewProvider drv endpoint tableName
            = match mongodriver.Connect drv Background opts with
              | Err e => (None, Some e)
              | Ok client =>
                  match mongodriver.Ping drv client Background with
                  | Some e => (None, Some e)
                  | None =>
                      (Some {| mongo.Client := client;
                               mongo.Collection :=
                                 {| mongodriver.coll_client := client;
                                    mongodriver.coll_db :=
                                      TrimPrefix (Path endpoint) "/";
                                    mongodriver.coll_name := tableName |} |},
                       None)
                  end
              end)
         /\ same_server (mongodriver.opt_uri opts) endpoint
         /\ (forall key,
               RawQuery (mongodriver.opt_uri opts) !! key
               = if bool_decide (key ∈ recognized) then None
                 else RawQuery endpoint !! key)
         /\ mongodriver.opt_rc opts
            = (if one_of (setting endpoint "readConcern") [""; "majority"]
               then mongodriver.Majority
               else if one_of (setting endpoint "readConcern") ["local"]
                    then mongodriver.Local
                    else mongodriver.Linearizable)
         /\ mongodriver.wc_w (mongodriver.opt_wc opts)
            = (if one_of (setting endpoint "writeConcern") [""; "majority"]
               then mongodriver.WMajority
               else match Atoi (setting endpoint "writeConcern") with
                    | Ok n => mongodriver.W n
                    | Err _ => mongodriver.WMajority
                    end)
         /\ mongodriver.wc_j (mongodriver.opt_wc opts)
            = one_of (setting endpoint "journal") ["true"; "1"]
         /\ (RawQuery endpoint !! "readConcern" = None ->
             mongodriver.opt_rc opts = mongodriver.Majority)
         /\ (RawQuery endpoint !! "writeConcern" = None ->
             mongodriver.wc_w (mongodriver.opt_wc opts)
             = mongodriver.WMajority)
     else
       exists e,
         forall drv, mongo.NewProvider drv endpoint tableName = (None, Some e).
Proof.
  split.
  { intros [e E]%Atoi_not_integer. by rewrite E. }
  pose proof (absent_setting endpoint "readConcern") as Hrc.
  pose proof (absent_setting endpoint "writeConcern") as Hwc.
  walk_switches endpoint
    ltac:(eexists; split; [intros drv; reflexivity|];
          cbn [mongodriver.opt_uri mongodriver.opt_rc mongodriver.opt_wc
               mongodriver.wc_w mongodriver.wc_j mongodriver.New
               mongodriver.WithJ set_RawQuery RawQuery];
          split_and?; try done;
          first [ apply lookup_stripped
                | intros Habs;
                  by first [apply Hrc in Habs | apply Hwc in Habs] ]).
Qed.

End Construction.

(** ** Concrete worlds *)

#[local] Existing Instance demo.latin.

(** C1. The failing input: three entities in the age range, and a result
    set that breaks when its second row is fetched. The Postgres
    ReadRange returns true and writes no log line, so this error is
    neither logged nor turned into false; the Mongo ReadRange, which
    reads [cursor.Err()] after its loop, logs it and returns false. *)
Lemma postgres_ReadRange_hides_fetch_error :
  let w := demo.world [demo.person 1 50; demo.person 2 60; demo.person 3 70]
             demo.flaky 3 [] in
  next_fault (env w) 1 = Some "connection reset by peer"
  /\ fst (call (Postgres demo.pg) OpRange w) = Returned true
  /\ logs (emitted w (snd (call (Postgres demo.pg) OpRange w))) = []
  /\ fst (call (Mongo demo.mg) OpRange w) = Returned false
  /\ logs (emitted w (snd (call (Mongo demo.mg) OpRange w)))
     = [[LErr "connection reset by peer"]].
Proof. cbv zeta. repeat split; reflexivity. Qed.

(** C7. The failing input: four entities, three of them in the age
    range, and a result set that breaks when its second row is fetched.
    The Postgres ReadRange has read one of the three selected entities
    and returns true; the Mongo ReadRange returns false there. *)
Lemma postgres_ReadRange_true_after_partial_read :
  let w := demo.world
             [demo.person 1 30; demo.person 2 50; demo.person 3 60;
              demo.person 4 70] demo.flaky 4 [] in
  answer (Select (MatchAge 45 75)) (rows w)
  = [demo.person 2 50; demo.person 3 60; demo.person 4 70]
  /\ decoded (emitted w (snd (postgres.ReadRange demo.pg w)))
     = [demo.person 2 50]
  /\ fst (postgres.ReadRange demo.pg w) = Returned true
  /\ fst (mongo.ReadRange demo.mg w) = Returned false.
Proof. cbv zeta. repeat split; reflexivity. Qed.

(** C2, as stated, fails: the sampled identifier 1 matches no stored
    entity, and UpdateRecord of either backend returns true. *)
Lemma UpdateRecord_without_match_returns_true :
  let w := demo.world [demo.person 2 30; demo.person 3 40] demo.healthy 3
             [5%N] in
  fst (GetExisting (gen w)) = 1%N
  /\ List.filter (matches (MatchID 1)) (rows w) = []
  /\ fst (postgres.UpdateRecord demo.pg w) = Returned true
  /\ fst (mongo.UpdateRecord demo.mg w) = Returned true.
Proof. cbv zeta. repeat split; reflexivity. Qed.

(** With no entity under the sampled identifier 1, both updates leave
    the stored entities as they were. *)
Lemma UpdateRecord_returns_driver_verdict_witness :
  let w := demo.world [demo.person 2 30; demo.person 3 40] demo.healthy 3
             [5%N] in
  rows (snd (postgres.UpdateRecord demo.pg w)) = rows w
  /\ rows (snd (mongo.UpdateRecord demo.mg w)) = rows w.
Proof.
  cbv zeta.
  destruct (UpdateRecord_returns_driver_verdict demo.pg demo.mg
              (demo.world [demo.person 2 30; demo.person 3 40] demo.healthy 3
                 [5%N])) as (_ & _ & Hrows).
  apply Hrows. reflexivity.
Defined.

(** C3, as stated, fails: the driver call of the Postgres InsertRecord
    runs under a context without deadline, and with a backend that takes
    eleven seconds the call is not timed out and returns true. *)
Lemma postgres_InsertRecord_has_no_deadline :
  let w := demo.world [] demo.slow 0 [30%N; 5%N] in
  contexts (emitted w (snd (postgres.InsertRecord demo.pg w))) = [Background]
  /\ Deadline Background = None
  /\ latency (env w) = (11 * Second)%Z
  /\ fst (postgres.InsertRecord demo.pg w) = Returned true.
Proof. cbv zeta. repeat split; reflexivity. Qed.

(** A backend that takes eleven seconds makes the Mongo ReadRecord
    return false. *)
Lemma Mongo_calls_expire_witness :
  fst (mongo.call demo.mg OpRead (demo.world [demo.person 1 30] demo.slow 1 []))
  = Returned false.
Proof.
  destruct (Mongo_calls_expire_Postgres_calls_do_not demo.pg demo.mg OpRead
              (demo.world [demo.person 1 30] demo.slow 1 []))
    as (_ & _ & Hslow & _).
  apply Hslow. reflexivity.
Defined.


(** C5, as stated, fails: the table holds one row, with identifier 0, the
    backend is reachable, and the Postgres GetMaxID returns an error. *)
Lemma postgres_GetMaxID_fails_on_zero :
  let w := demo.world [demo.person 0 30] demo.healthy 0 [] in
  rows w <> []
  /\ postgres_unreachable (env w) = false
  /\ fst (postgres.GetMaxID demo.pg w)
     = Returned (0%N, Some "no existing data? error = <nil>, count = 0").
Proof. cbv zeta. repeat split; [discriminate | reflexivity..]. Qed.

(** One stored row, with identifier 0: Mongo returns [(0, nil)] and
    Postgres an error. *)
Lemma GetMaxID_differ_at_zero_witness :
  let w := demo.world [demo.person 0 30] demo.healthy 0 [] in
  fst (mongo.GetMaxID demo.mg w) = Returned (0%N, None)
  /\ exists e, fst (postgres.GetMaxID demo.pg w) = Returned (0%N, Some e).
Proof.
  cbv zeta.
  destruct (GetMaxID_differ_at_zero demo.pg demo.mg
              (demo.world [demo.person 0 30] demo.healthy 0 []))
    as (_ & Hzero).
  apply Hzero; [|reflexivity..].
  split.
  - exists (demo.person 0 30). split; [apply list_elem_of_here | reflexivity].
  - intros d Hd. apply list_elem_of_singleton in Hd. subst. reflexivity.
Defined.


(** C10, as stated, fails: MAJORITY is none of the four values listed
    for readConcern, and NewProvider returns a provider and no error. *)
Lemma uppercase_readConcern_accepted :
  one_of (Get (RawQuery demo.shouting) "readConcern")
    [""; "majority"; "local"; "linearizable"] = false
  /\ snd (mongo.NewProvider demo.mongo_up demo.shouting "people") = None
  /\ mongodriver.opt_rc
       (mongodriver.client_opts
          (match fst (mongo.NewProvider demo.mongo_up demo.shouting "people")
           with
           | Some p => mongo.Client p
           | None => demo.mongo_client
           end)) = mongodriver.Majority
  /\ is_Some (fst (mongo.NewProvider demo.mongo_up demo.shouting "people")).
Proof. repeat split; try reflexivity. vm_compute. eauto. Qed.

(** The endpoint [?writeConcern=two] is refused whatever the driver
    does. The endpoint [?readConcern=Local&journal=1&appName=bench] is
    connected to with the local read concern and the journal flag, and
    the query handed to the driver has lost [readConcern] and kept
    [appName]. *)
Lemma NewProvider_validates_endpoint_witness :
  (exists e,
     forall drv, mongo.NewProvider drv demo.worded "people" = (None, Some e))
  /\ exists p,
       mongo.NewProvider demo.mongo_up demo.tuned "people" = (Some p, None)
       /\ mongodriver.opt_rc (mongodriver.client_opts (mongo.Client p))
          = mongodriver.Local
       /\ mongodriver.wc_j
            (mongodriver.opt_wc (mongodriver.client_opts (mongo.Client p)))
          = true
       /\ RawQuery
            (mongodriver.opt_uri (mongodriver.client_opts (mongo.Client p)))
            !! "readConcern" = None
       /\ RawQuery
            (mongodriver.opt_uri (mongodriver.client_opts (mongo.Client p)))
            !! "appName" = Some ["bench"].
Proof.
  split.
  - destruct (NewProvider_validates_endpoint demo.worded "people")
      as [_ Hrun].
    assert (valid_endpoint demo.worded = false) as E by (by vm_compute).
    rewrite E in Hrun. exact Hrun.
  - destruct (NewProvider_validates_endpoint demo.tuned "people")
      as [_ Hrun].
    assert (valid_endpoint demo.tuned = true) as E by (by vm_compute).
    rewrite E in Hrun.
    destruct Hrun as (opts & Hrun & _ & Hq & Hrc & _ & Hj & _).
    eexists. split; [rewrite Hrun; reflexivity|].
    cbn [mongo.Client mongodriver.client_opts]. split_and!.
    + rewrite Hrc. by vm_compute.
    + rewrite Hj. by vm_compute.
    + rewrite Hq. by vm_compute.
    + rewrite Hq. by vm_compute.
Defined.

(** The lower case of the dotted capital I is the letter i: the read
    concern [MAJORİTY] is read as majority and the endpoint is
    accepted. *)
Lemma dotted_readConcern_accepted :
  setting demo.dotted "readConcern" = "majority"
  /\ is_Some (fst (mongo.NewProvider demo.mongo_up demo.dotted "people")).
Proof. split; [by vm_compute|]. vm_compute. eauto. Qed.

(** * Further properties of the providers *)

Section Reads.
Context {G R : Type} `{Generator G} `{RandSource R} `{Randomiser R}.
Implicit Types (w : World G R) (evs : list Event) (l pending : list Doc).

(** X1. ReadRecord of either backend returns true exactly when an entity
    is stored under the sampled identifier, the driver delivers its row
    and the row decodes; with no entity under the identifier it returns
    false. It decodes at most that one entity. *)
Theorem ReadRecord_finds_or_fails
  (pg : postgres.FuncProvider) (mg : mongo.FuncProvider) w :
  let hit := lookup_id (fst (GetExisting (gen w))) (rows w) in
  let r_pg := postgres.ReadRecord pg w in
  let r_mg := mongo.ReadRecord mg w in
  fst r_pg
  = Returned match hit with
             | Some d => negb (postgres_unreachable (env w)) && decodes d
             | None => false
             end
  /\ fst r_mg
     = Returned match hit with
                | Some d => negb (mongo_unreachable (env w)) && decodes d
                | None => false
                end
  /\ decoded (emitted w (snd r_pg))
     = match hit with
       | Some d => if postgres_unreachable (env w) then [] else [d]
       | None => []
       end
  /\ decoded (emitted w (snd r_mg))
     = match hit with
       | Some d => if mongo_unreachable (env w) then [] else [d]
       | None => []
       end.
Proof.
  cbv zeta. unfold lookup_id, postgres_unreachable, mongo_unreachable, decodes.
  split_and!.
  - unfold postgres.ReadRecord, postgres.QueryRow, postgres.Scan.
    exec; cbn [fst head notNil orb negb andb] in *; simplify_eq; settle;
      first [done | congruence].
  - unfold mongo.ReadRecord, mongo.FindOne, mongo.Decode.
    exec; cbn [fst head notNil orb negb andb] in *; simplify_eq; settle;
      first [done | congruence].
  - unfold postgres.ReadRecord, postgres.QueryRow, postgres.Scan.
    exec; cbn [fst head notNil orb negb andb] in *; simplify_eq; settle;
      first [by read_trace | congruence].
  - unfold mongo.ReadRecord, mongo.FindOne, mongo.Decode.
    exec; cbn [fst head notNil orb negb andb] in *; simplify_eq; settle;
      first [by read_trace | congruence].
Qed.

Lemma newest_in l m : newest l = Some m -> m ∈ l.
Proof.
  revert m. induction l as [|d l IH]; intros m; cbn; [done|].
  destruct (newest l) as [m'|].
  - case_match; intros [= <-]; [right; by apply IH | by left].
  - intros [= <-]. by left.
Qed.

Lemma newest_Some l : l <> [] -> exists m, newest l = Some m.
Proof.
  destruct (newest l) as [m|] eqn:E; [by eexists|].
  by apply newest_None in E.
Qed.

(** What ReadMostRecentRecord computes. *)
Lemma ReadMostRecentRecord_run
  (pg : postgres.FuncProvider) (mg : mongo.FuncProvider) w :
  let r_pg := postgres.ReadMostRecentRecord pg w in
  let r_mg := mongo.ReadMostRecentRecord mg w in
  fst r_pg
  = Returned match newest (rows w) with
             | Some d => negb (postgres_unreachable (env w)) && decodes d
             | None => false
             end
  /\ fst r_mg
     = Returned match newest (rows w) with
                | Some d => negb (mongo_unreachable (env w)) && decodes d
                | None => false
                end
  /\ decoded (emitted w (snd r_pg))
     = match newest (rows w) with
       | Some d => if postgres_unreachable (env w) then [] else [d]
       | None => []
       end
  /\ decoded (emitted w (snd r_mg))
     = match newest (rows w) with
       | Some d => if mongo_unreachable (env w) then [] else [d]
       | None => []
       end.
Proof.
  cbv zeta. unfold postgres_unreachable, mongo_unreachable, decodes.
  split_and!.
  - unfold postgres.ReadMostRecentRecord, postgres.QueryRow, postgres.Scan,
      answer.
    exec; cbn [fst head notNil orb negb andb] in *; simplify_eq; settle;
      first [done | congruence].
  - unfold mongo.ReadMostRecentRecord, mongo.FindOne, mongo.Decode, answer.
    exec; cbn [fst head notNil orb negb andb] in *; simplify_eq; settle;
      first [done | congruence].
  - unfold postgres.ReadMostRecentRecord, postgres.QueryRow, postgres.Scan,
      answer.
    exec; cbn [fst head notNil orb negb andb] in *; simplify_eq; settle;
      first [by read_trace | congruence].
  - unfold mongo.ReadMostRecentRecord, mongo.FindOne, mongo.Decode, answer.
    exec; cbn [fst head notNil orb negb andb] in *; simplify_eq; settle;
      first [by read_trace | congruence].
Qed.

(** X2. ReadMostRecentRecord of either backend returns false on an empty
    backend. On any other it reads one stored entity whose identifier is
    the largest stored, and returns true exactly when the driver delivers
    that entity and it decodes. *)
Theorem ReadMostRecentRecord_reads_the_maximum
  (pg : postgres.FuncProvider) (mg : mongo.FuncProvider) w :
  let r_pg := postgres.ReadMostRecentRecord pg w in
  let r_mg := mongo.ReadMostRecentRecord mg w in
  (rows w = [] -> fst r_pg = Returned false /\ fst r_mg = Returned false)
  /\ (rows w <> [] ->
      exists d,
        d ∈ rows w /\ is_max_id (d_id d) (rows w)
        /\ fst r_pg
           = Returned (negb (postgres_unreachable (env w)) && decodes d)
        /\ fst r_mg = Returned (negb (mongo_unreachable (env w)) && decodes d)
        /\ decoded (emitted w (snd r_pg))
           = (if postgres_unreachable (env w) then [] else [d])
        /\ decoded (emitted w (snd r_mg))
           = (if mongo_unreachable (env w) then [] else [d])).
Proof.
  cbv zeta.
  destruct (ReadMostRecentRecord_run pg mg w) as (Hpg & Hmg & Dpg & Dmg).
  split.
  - intros E. rewrite E in Hpg, Hmg. by cbn in Hpg, Hmg.
  - intros [d Hd]%newest_Some. rewrite Hd in Hpg, Hmg, Dpg, Dmg.
    exists d. split_and!; try done.
    + by apply newest_in.
    + by apply newest_is_max.
Qed.

(** X3. The read operations leave the stored entities, the record
    template and the randomness source as they were. ReadRecord takes one
    identifier with [GetExisting]; ReadRange, ReadMostRecentRecord and
    GetMaxID do not touch the generator. *)
Theorem reads_leave_the_world_alone
  (pg : postgres.FuncProvider) (mg : mongo.FuncProvider) w :
  (untouched w (snd (postgres.ReadRecord pg w))
   /\ gen (snd (postgres.ReadRecord pg w)) = snd (GetExisting (gen w)))
  /\ (untouched w (snd (mongo.ReadRecord mg w))
      /\ gen (snd (mongo.ReadRecord mg w)) = snd (GetExisting (gen w)))
  /\ (untouched w (snd (postgres.ReadRange pg w))
      /\ gen (snd (postgres.ReadRange pg w)) = gen w)
  /\ (untouched w (snd (mongo.ReadRange mg w))
      /\ gen (snd (mongo.ReadRange mg w)) = gen w)
  /\ (untouched w (snd (postgres.ReadMostRecentRecord pg w))
      /\ gen (snd (postgres.ReadMostRecentRecord pg w)) = gen w)
  /\ (untouched w (snd (mongo.ReadMostRecentRecord mg w))
      /\ gen (snd (mongo.ReadMostRecentRecord mg w)) = gen w)
  /\ (untouched w (snd (postgres.GetMaxID pg w))
      /\ gen (snd (postgres.GetMaxID pg w)) = gen w)
  /\ (untouched w (snd (mongo.GetMaxID mg w))
      /\ gen (snd (mongo.GetMaxID mg w)) = gen w).
Proof.
  unfold untouched. split_and!.
  all: try (unfold postgres.ReadRecord, postgres.QueryRow, postgres.Scan;
            by exec).
  all: try (unfold mongo.ReadRecord, mongo.FindOne, mongo.Decode; by exec).
  all: try (unfold postgres.ReadMostRecentRecord, postgres.QueryRow,
              postgres.Scan; by exec).
  all: try (unfold mongo.ReadMostRecentRecord, mongo.FindOne, mongo.Decode;
            by exec).
  all: try (unfold postgres.GetMaxID, postgres.QueryRow, postgres.Scan;
            by exec).
  all: try (unfold mongo.GetMaxID, mongo.FindOne; by exec).
  all: try (unfold postgres.ReadRange, postgres.Query; exec; [done|];
            match goal with |- context [postgres.scan_loop ?i ?l ?w0] =>
              destruct (scan_loop_returns l i w0) as (b & evs & E & _) end;
            by rewrite E).
  all: unfold mongo.ReadRange, mongo.Find; exec; [done|];
    match goal with |- context [mongo.cursor_loop ?i ?l ?w0] =>
      destruct (cursor_loop_returns l i w0) as (b & evs & E & _) end;
    by rewrite E.
Qed.

Lemma newest_snoc l (x : Doc) :
  (forall d, d ∈ l -> (d_id d < d_id x)%N) -> newest (l ++ [x]) = Some x.
Proof.
  induction l as [|d l IH]; intros Hlt; [done|].
  cbn. rewrite IH.
  - destruct (N.ltb_spec (d_id d) (d_id x)) as [_|Hge]; [done|].
    specialize (Hlt d ltac:(by left)). lia.
  - intros d' Hd'. apply Hlt. by right.
Qed.

Lemma decodes_encode (p : Person) : decodes (encode p) = true.
Proof. done. Qed.

(** The store after an InsertRecord that returned true. *)
Lemma postgres_InsertRecord_true (pg : postgres.FuncProvider) w :
  fst (postgres.InsertRecord pg w) = Returned true ->
  rows (snd (postgres.InsertRecord pg w)) = rows w ++ [encode (fresh_record w)]
  /\ env (snd (postgres.InsertRecord pg w)) = env w
  /\ refusal Background (env w) = None.
Proof.
  unfold fresh_record, postgres.InsertRecord, postgres.Exec.
  exec; cbn [fst snd rows env]; try done.
  match goal with E : Marshal _ = Ok _ |- _ => apply Marshal_Ok in E as -> end.
  done.
Qed.

Lemma mongo_InsertRecord_true (mg : mongo.FuncProvider) w :
  fst (mongo.InsertRecord mg w) = Returned true ->
  rows (snd (mongo.InsertRecord mg w)) = rows w ++ [encode (fresh_record w)]
  /\ env (snd (mongo.InsertRecord mg w)) = env w
  /\ refusal mongo.ctx (env w) = None.
Proof.
  unfold fresh_record, mongo.InsertRecord, mongo.InsertOne.
  exec; cbn [fst snd rows env]; done.
Qed.

(** X4. After an InsertRecord that returned true with an identifier above
    every stored one, the backend being able to deliver a row, GetMaxID
    returns that identifier without error and ReadMostRecentRecord
    decodes exactly the inserted record and returns true. *)
Theorem InsertRecord_then_newest
  (pg : postgres.FuncProvider) (mg : mongo.FuncProvider) w :
  let v := fst (GetNew (gen w)) in
  let w_pg := snd (postgres.InsertRecord pg w) in
  let w_mg := snd (mongo.InsertRecord mg w) in
  (0 < v)%N ->
  (forall d, d ∈ rows w -> (d_id d < v)%N) ->
  next_fault (env w) 0 = None ->
  scan_fault (env w) 0 = None ->
  (fst (postgres.InsertRecord pg w) = Returned true ->
   fst (postgres.GetMaxID pg w_pg) = Returned (v, None)
   /\ fst (postgres.ReadMostRecentRecord pg w_pg) = Returned true
   /\ decoded (emitted w_pg (snd (postgres.ReadMostRecentRecord pg w_pg)))
      = [encode (fresh_record w)])
  /\ (fst (mongo.InsertRecord mg w) = Returned true ->
      fst (mongo.GetMaxID mg w_mg) = Returned (v, None)
      /\ fst (mongo.ReadMostRecentRecord mg w_mg) = Returned true
      /\ decoded (emitted w_mg (snd (mongo.ReadMostRecentRecord mg w_mg)))
         = [encode (fresh_record w)]).
Proof.
  cbv zeta. intros Hpos Hlt Hn Hs.
  assert (newest (rows w ++ [encode (fresh_record w)])
          = Some (encode (fresh_record w))) as Hnew.
  { apply newest_snoc. intros d Hd. by apply Hlt. }
  split.
  - intros (Hrows & Henv & Hr)%postgres_InsertRecord_true.
    destruct (ReadMostRecentRecord_run pg mg (snd (postgres.InsertRecord pg w)))
      as (Hread & _ & Hdec & _).
    rewrite Hread, Hdec, postgres_GetMaxID_run, Hrows, Henv, Hnew.
    unfold postgres_unreachable. rewrite Hr, Hn, Hs. cbn.
    destruct (N.eqb_spec (fst (GetNew (gen w))) 0) as [E|_]; [lia|done].
  - intros (Hrows & Henv & Hr)%mongo_InsertRecord_true.
    destruct (ReadMostRecentRecord_run pg mg (snd (mongo.InsertRecord mg w)))
      as (_ & Hread & _ & Hdec).
    rewrite Hread, Hdec, mongo_GetMaxID_run, Hrows, Henv, Hnew.
    unfold mongo_unreachable. rewrite Hr, Hn. done.
Qed.

Lemma select_update_all id v l :
  answer (Select (MatchID id)) (update_all (MatchID id) v l)
  = List.map (set_balance v) (answer (Select (MatchID id)) l).
Proof.
  unfold answer, update_all. induction l as [|d l IH]; [done|].
  cbn [List.map]. destruct (matches (MatchID id) d) eqn:E; cbn [List.filter].
  - assert (matches (MatchID id) (set_balance v d) = true) as -> by done.
    rewrite E. cbn [List.map]. by f_equal.
  - by rewrite E.
Qed.

Lemma lookup_update_first id v l :
  lookup_id id (update_first (MatchID id) v l)
  = set_balance v <$> lookup_id id l.
Proof.
  unfold lookup_id, answer. induction l as [|d l IH]; [done|].
  cbn [update_first]. destruct (matches (MatchID id) d) eqn:E;
    cbn [List.filter].
  - assert (matches (MatchID id) (set_balance v d) = true) as -> by done.
    by rewrite E.
  - by rewrite E.
Qed.

(** X5. When the driver call of UpdateRecord goes through, the entities
    under the sampled identifier carry the drawn balance afterwards: in
    Postgres all of them, in Mongo, whose driver must also be able to
    encode the identifier, the first one, which is the one a lookup by
    identifier returns. Each backend is taken on its own call. *)
Theorem UpdateRecord_sets_the_balance
  (pg : postgres.FuncProvider) (mg : mongo.FuncProvider) w :
  let id := fst (GetExisting (gen w)) in
  let f := fst (Float32 (rnd w)) in
  (refusal Background (env w) = None ->
   answer (Select (MatchID id)) (rows (snd (postgres.UpdateRecord pg w)))
   = List.map (set_balance (VNum f)) (answer (Select (MatchID id)) (rows w)))
  /\ (refusal mongo.ctx (env w) = None ->
      (id <= MaxInt64)%N ->
      lookup_id id (rows (snd (mongo.UpdateRecord mg w)))
      = set_balance (VNum f) <$> lookup_id id (rows w)).
Proof.
  cbv zeta. pose proof (Float32_finite (rnd w)) as Hfin. split.
  - intros Hp. unfold postgres.UpdateRecord, postgres.Exec.
    exec; cbn [fst snd rows] in *; try congruence. apply select_update_all.
  - intros Hm Hfit%N.ltb_ge. unfold mongo.UpdateRecord, mongo.UpdateOne.
    exec; cbn [fst snd rows] in *; try congruence. apply lookup_update_first.
Qed.

Lemma no_faults_refusal (e : Env) :
  no_faults e -> refusal Background e = None /\ refusal mongo.ctx e = None.
Proof.
  intros (Hf & Hl & _). unfold refusal, mongo.ctx. cbn [Deadline].
  by destruct (Z.ltb_spec (10 * Second) (latency e)); [lia|].
Qed.

(** Without faults the loops of the two ReadRange decode the same
    documents, log the same errors and return the same boolean. *)
Lemma loops_agree pending : forall i w1 w2,
  no_faults (env w1) -> env w2 = env w1 ->
  exists b evs,
    postgres.scan_loop i pending w1 = (Returned b, with_trace w1 evs)
    /\ mongo.cursor_loop i pending w2 = (Returned b, with_trace w2 evs).
Proof.
  induction pending as [|d rest IH];
    intros i [d1 g1 r1 l1 e1 t1] [d2 g2 r2 l2 e2 t2] Hnf Henv;
    cbn [env] in *; subst e2.
  - exists true, []. by rewrite !with_trace_nil.
  - pose proof Hnf as (_ & _ & Hn & Hs).
    cbn [postgres.scan_loop mongo.cursor_loop]. exec.
    all: repeat match goal with
                | Hx : next_fault _ _ = Some _ |- _ => rewrite Hn in Hx
                | Hx : scan_fault _ _ = Some _ |- _ => rewrite Hs in Hx
                end;
      try congruence.
    + destruct (IH (S i) (mkWorld d1 g1 r1 l1 e1 (t1 ++ [EDecode d]))
                  (mkWorld d2 g2 r2 l2 e1 (t2 ++ [EDecode d])) Hnf eq_refl)
        as (b & evs & E1 & E2).
      exists b, (EDecode d :: evs). unfold with_trace in *. cbn in *.
      rewrite E1, E2, <- !app_assoc. done.
    + exists false, [EDecode d; ELog [LErr e]].
      unfold with_trace. cbn. by rewrite <- !app_assoc.
Qed.

(** X6. On a backend without faults the read operations of the two
    providers are interchangeable: ReadRecord, ReadRange and
    ReadMostRecentRecord return the same boolean and decode the same
    entities in the same order, whatever is stored. *)
Theorem readers_agree
  (pg : postgres.FuncProvider) (mg : mongo.FuncProvider) (o : Op) w :
  no_faults (env w) ->
  o <> OpInsert -> o <> OpUpdate ->
  fst (postgres.call pg o w) = fst (mongo.call mg o w)
  /\ decoded (emitted w (snd (postgres.call pg o w)))
     = decoded (emitted w (snd (mongo.call mg o w))).
Proof.
  intros Hnf Hi Hu. pose proof Hnf as (_ & _ & Hn & Hs).
  destruct (no_faults_refusal _ Hnf) as [Hp Hm].
  destruct o; try done; cbn [postgres.call mongo.call].
  - unfold postgres.ReadRecord, postgres.QueryRow, postgres.Scan,
      mongo.ReadRecord, mongo.FindOne, mongo.Decode.
    exec; rewrite ?Hn, ?Hs in *; cbn [fst snd]; split; try congruence;
      by read_trace.
  - unfold postgres.ReadRange, postgres.Query, mongo.ReadRange, mongo.Find.
    exec; try congruence.
    match goal with
    | |- context [postgres.scan_loop ?i ?l ?w1] =>
        match goal with
        | |- context [mongo.cursor_loop i l ?w2] =>
            destruct (loops_agree l i w1 w2 Hnf eq_refl)
              as (b & evs & E1 & E2)
        end
    end.
    rewrite E1, E2. cbn [fst snd]. split; [done|]. by read_trace.
  - destruct (ReadMostRecentRecord_run pg mg w) as (E1 & E2 & D1 & D2).
    rewrite E1, E2, D1, D2. unfold postgres_unreachable, mongo_unreachable.
    by rewrite Hp, Hm, Hn, Hs.
Qed.

Lemma no_match_outside_ids id l :
  id ∉ ids l -> existsb (matches (MatchID id)) l = false.
Proof.
  induction l as [|d l IH]; [done|].
  cbn. intros Hout. apply not_elem_of_cons in Hout as [Hne Hout].
  destruct (N.eqb_spec (d_id d) id); [done|]. by apply IH.
Qed.

(** With unique identifiers, [UPDATE ... WHERE] and [UpdateOne] write
    the same documents. *)
Lemma update_first_all_unique id v l :
  NoDup (ids l) -> update_first (MatchID id) v l = update_all (MatchID id) v l.
Proof.
  induction l as [|d l IH]; [done|]. intros Hnd.
  change (ids (d :: l)) with (d_id d :: ids l) in Hnd.
  apply NoDup_cons in Hnd as [Hout Hnd].
  change (update_all (MatchID id) v (d :: l))
    with ((if matches (MatchID id) d then set_balance v d else d)
          :: update_all (MatchID id) v l).
  cbn [update_first]. destruct (matches (MatchID id) d) eqn:E.
  - f_equal. symmetry. apply update_all_no_match, no_match_outside_ids.
    cbn in E. apply N.eqb_eq in E. by rewrite <- E.
  - f_equal. by apply IH.
Qed.

(** X7. On a backend without faults and with unique stored identifiers,
    the Postgres UpdateRecord returns true. When the sampled identifier
    is at most [math.MaxInt64], the Mongo UpdateRecord returns true too
    and the two leave the same entities stored. When it is above, the
    Mongo driver cannot encode it: the Mongo UpdateRecord returns false
    and writes nothing. *)
Theorem updaters_agree
  (pg : postgres.FuncProvider) (mg : mongo.FuncProvider) w :
  let id := fst (GetExisting (gen w)) in
  no_faults (env w) ->
  NoDup (ids (rows w)) ->
  fst (postgres.UpdateRecord pg w) = Returned true
  /\ ((id <= MaxInt64)%N ->
      fst (mongo.UpdateRecord mg w) = Returned true
      /\ rows (snd (postgres.UpdateRecord pg w))
         = rows (snd (mongo.UpdateRecord mg w)))
  /\ ((MaxInt64 < id)%N ->
      fst (mongo.UpdateRecord mg w) = Returned false
      /\ rows (snd (mongo.UpdateRecord mg w)) = rows w).
Proof.
  cbv zeta. intros [Hp Hm]%no_faults_refusal Hnd.
  pose proof (Float32_finite (rnd w)) as Hfin.
  split_and!.
  - unfold postgres.UpdateRecord, postgres.Exec.
    exec; cbn [fst snd] in *; congruence.
  - intros Hfit%N.ltb_ge.
    unfold postgres.UpdateRecord, postgres.Exec, mongo.UpdateRecord,
      mongo.UpdateOne.
    exec; cbn [fst snd rows] in *; try congruence.
    split; [done|]. symmetry. by apply update_first_all_unique.
  - intros Hbig%N.ltb_lt. unfold mongo.UpdateRecord, mongo.UpdateOne.
    exec; cbn [fst snd rows] in *; by try congruence.
Qed.

(** X8. On a backend without faults, with a randomised balance that is
    finite and a new identifier that is not stored yet, the Postgres
    InsertRecord returns true, and the two providers leave the same
    template, generator and randomness source. When the new identifier
    is at most [math.MaxInt64], the Mongo InsertRecord returns true too
    and both store the same record. When it is above, the Mongo driver
    cannot encode it: the Mongo InsertRecord returns false and stores
    nothing. *)
Theorem inserters_agree
  (pg : postgres.FuncProvider) (mg : mongo.FuncProvider) w :
  let v := fst (GetNew (gen w)) in
  let w_pg := snd (postgres.InsertRecord pg w) in
  let w_mg := snd (mongo.InsertRecord mg w) in
  no_faults (env w) ->
  IsFinite (Balance (fresh_record w)) = true ->
  v ∉ ids (rows w) ->
  fst (postgres.InsertRecord pg w) = Returned true
  /\ data w_pg = data w_mg /\ gen w_pg = gen w_mg /\ rnd w_pg = rnd w_mg
  /\ ((v <= MaxInt64)%N ->
      fst (mongo.InsertRecord mg w) = Returned true /\ rows w_pg = rows w_mg)
  /\ ((MaxInt64 < v)%N ->
      fst (mongo.InsertRecord mg w) = Returned false /\ rows w_mg = rows w).
Proof.
  cbv zeta. intros [Hp Hm]%no_faults_refusal Hf Hnew.
  apply no_match_outside_ids in Hnew.
  destruct (N.ltb_spec MaxInt64 (fst (GetNew (gen w)))) as [Hbig|Hfit].
  - pose proof Hbig as Hb%N.ltb_lt.
    unfold fresh_record, Marshal, postgres.InsertRecord, postgres.Exec,
      mongo.InsertRecord, mongo.InsertOne in *.
    exec; cbn [fst snd rows data gen rnd encode set_ID d_id ID Balance] in *;
      try congruence.
    all: unfold Marshal in *; cbn [set_ID Balance] in *;
      repeat case_match; simplify_eq; try congruence;
      split_and!; try done; intros; lia.
  - pose proof Hfit as Hb%N.ltb_ge.
    unfold fresh_record, Marshal, postgres.InsertRecord, postgres.Exec,
      mongo.InsertRecord, mongo.InsertOne in *.
    exec; cbn [fst snd rows data gen rnd encode set_ID d_id ID Balance] in *;
      try congruence.
    all: unfold Marshal in *; cbn [set_ID Balance] in *;
      repeat case_match; simplify_eq; try congruence;
      split_and!; try done; intros; lia.
Qed.

(** X9. On a backend without faults the two GetMaxID agree unless the
    largest stored identifier is 0: on an empty backend both return an
    error, and with a largest identifier other than 0 both return it
    without error. *)
Theorem GetMaxID_agree_off_zero
  (pg : postgres.FuncProvider) (mg : mongo.FuncProvider) w :
  no_faults (env w) ->
  (rows w = [] ->
   (exists e, fst (postgres.GetMaxID pg w) = Returned (0%N, Some e))
   /\ exists e, fst (mongo.GetMaxID mg w) = Returned (0%N, Some e))
  /\ (forall v, is_max_id v (rows w) -> v <> 0%N ->
      fst (postgres.GetMaxID pg w) = Returned (v, None)
      /\ fst (mongo.GetMaxID mg w) = Returned (v, None)).
Proof.
  intros Hnf. pose proof Hnf as (_ & _ & Hn & Hs).
  destruct (no_faults_refusal _ Hnf) as [Hp Hm].
  rewrite mongo_GetMaxID_run, postgres_GetMaxID_run, Hp, Hm, Hn, Hs. split.
  - intros ->. cbn. eauto.
  - intros v Hv Hnz. destruct (newest (rows w)) as [d|] eqn:En.
    + apply newest_is_max in En.
      rewrite (is_max_id_unique _ _ _ En Hv).
      by destruct (N.eqb_spec v 0).
    + apply newest_None in En. destruct Hv as [(d & Hd & _) _].
      rewrite En in Hd. by apply elem_of_nil in Hd.
Qed.









(** X12. GetMaxID of the Mongo provider makes its one driver call under
    the ten-second timeout and returns an error when the backend takes
    longer; GetMaxID of the Postgres provider makes its one driver call
    under [context.Background()] and its result does not depend on how
    long the backend takes. *)
Theorem GetMaxID_deadlines
  (pg : postgres.FuncProvider) (mg : mongo.FuncProvider) w :
  contexts (emitted w (snd (mongo.GetMaxID mg w))) = [mongo.ctx]
  /\ ((10 * Second < latency (env w))%Z ->
      fst (mongo.GetMaxID mg w)
      = Returned (0%N, Some (String.append "no existing data? "
                               DeadlineExceeded)))
  /\ contexts (emitted w (snd (postgres.GetMaxID pg w))) = [Background]
  /\ (forall t, fst (postgres.GetMaxID pg (set_latency t w))
               = fst (postgres.GetMaxID pg w)).
Proof.
  split_and!.
  - unfold mongo.GetMaxID, mongo.FindOne. exec; by read_trace.
  - intros Hl%refusal_timeout. by rewrite mongo_GetMaxID_run, Hl.
  - unfold postgres.GetMaxID, postgres.QueryRow, postgres.Scan.
    exec; by read_trace.
  - intros t. by rewrite !postgres_GetMaxID_run.
Qed.

(** What an operation leaves stored. *)
Lemma rows_after_call (p : Provider) (o : Op) w :
  let w' := snd (call p o w) in
  let id := fst (GetExisting (gen w)) in
  let f := fst (Float32 (rnd w)) in
  match o with
  | OpInsert =>
      rows w' = rows w \/ rows w' = rows w ++ [encode (fresh_record w)]
  | OpUpdate =>
      rows w' = rows w
      \/ rows w' = update_all (MatchID id) (VNum f) (rows w)
      \/ rows w' = update_first (MatchID id) (VNum f) (rows w)
  | _ => rows w' = rows w
  end.
Proof.
  cbv zeta.
  destruct p as [pg|mg], o; cbn [call postgres.call mongo.call].
  - unfold fresh_record, postgres.InsertRecord, postgres.Exec.
    exec; cbn [fst snd rows]; try (by left).
    all: right;
      match goal with E : Marshal _ = Ok _ |- _ => apply Marshal_Ok in E as -> end;
      done.
  - unfold postgres.UpdateRecord, postgres.Exec.
    exec; cbn [fst snd rows]; try (by left).
    all: right; by left.
  - unfold postgres.ReadRecord, postgres.QueryRow, postgres.Scan. by exec.
  - unfold postgres.ReadRange, postgres.Query. exec; [done|].
    match goal with |- context [postgres.scan_loop ?i ?l ?w0] =>
      destruct (scan_loop_returns l i w0) as (b & evs & E & _) end.
    by rewrite E.
  - unfold postgres.ReadMostRecentRecord, postgres.QueryRow, postgres.Scan.
    by exec.
  - unfold fresh_record, mongo.InsertRecord, mongo.InsertOne.
    exec; cbn [fst snd rows]; try (by left).
    all: by right.
  - unfold mongo.UpdateRecord, mongo.UpdateOne.
    exec; cbn [fst snd rows]; try (by left).
    all: right; by right.
  - unfold mongo.ReadRecord, mongo.FindOne, mongo.Decode. by exec.
  - unfold mongo.ReadRange, mongo.Find. exec; [done|].
    match goal with |- context [mongo.cursor_loop ?i ?l ?w0] =>
      destruct (cursor_loop_returns l i w0) as (b & evs & E & _) end.
    by rewrite E.
  - unfold mongo.ReadMostRecentRecord, mongo.FindOne, mongo.Decode. by exec.
Qed.

Lemma decodes_set_balance f d :
  decodes d = true -> decodes (set_balance (VNum f) d) = true.
Proof.
  unfold decodes, Unmarshal. cbn [set_balance d_balance d_name d_padding].
  by repeat case_match.
Qed.

Lemma update_all_decodable flt f l :
  Forall (fun d => decodes d = true) l ->
  Forall (fun d => decodes d = true) (update_all flt (VNum f) l).
Proof.
  unfold update_all. induction 1 as [|d l Hd Hl IH]; cbn [List.map];
    constructor; [|done].
  destruct (matches flt d); [by apply decodes_set_balance | done].
Qed.

Lemma update_first_decodable flt f l :
  Forall (fun d => decodes d = true) l ->
  Forall (fun d => decodes d = true) (update_first flt (VNum f) l).
Proof.
  induction 1 as [|d l Hd Hl IH]; cbn [update_first]; [constructor|].
  destruct (matches flt d); constructor; try done.
  by apply decodes_set_balance.
Qed.

(** X13. When every stored entity decodes to a record, it still does
    after any operation of either provider, whatever the outcome: what
    InsertRecord stores is the encoding of a record, and what
    UpdateRecord writes under balance is a number. *)
Theorem stored_entities_stay_decodable (p : Provider) (o : Op) w :
  Forall (fun d => decodes d = true) (rows w) ->
  Forall (fun d => decodes d = true) (rows (snd (call p o w))).
Proof.
  intros Hall. pose proof (rows_after_call p o w) as Hrows. cbv zeta in Hrows.
  destruct o; try (by rewrite Hrows).
  - destruct Hrows as [->| ->]; [done|].
    apply Forall_app. split; [done|]. constructor; [|constructor].
    apply decodes_encode.
  - destruct Hrows as [->|[->| ->]]; [done| |].
    + by apply update_all_decodable.
    + by apply update_first_decodable.
Qed.

(** What an operation draws from the generator. *)
Lemma gen_after_call (p : Provider) (o : Op) w :
  gen (snd (call p o w))
  = match o with
    | OpInsert => snd (GetNew (gen w))
    | OpUpdate | OpRead => snd (GetExisting (gen w))
    | OpRange | OpRecent => gen w
    end.
Proof.
  destruct p as [pg|mg], o; cbn [call postgres.call mongo.call].
  - unfold postgres.InsertRecord, postgres.Exec. by exec.
  - unfold postgres.UpdateRecord, postgres.Exec. by exec.
  - unfold postgres.ReadRecord, postgres.QueryRow, postgres.Scan. by exec.
  - unfold postgres.ReadRange, postgres.Query. exec; [done|].
    match goal with |- context [postgres.scan_loop ?i ?l ?w0] =>
      destruct (scan_loop_returns l i w0) as (b & evs & E & _) end.
    by rewrite E.
  - unfold postgres.ReadMostRecentRecord, postgres.QueryRow, postgres.Scan.
    by exec.
  - unfold mongo.InsertRecord, mongo.InsertOne. by exec.
  - unfold mongo.UpdateRecord, mongo.UpdateOne. by exec.
  - unfold mongo.ReadRecord, mongo.FindOne, mongo.Decode. by exec.
  - unfold mongo.ReadRange, mongo.Find. exec; [done|].
    match goal with |- context [mongo.cursor_loop ?i ?l ?w0] =>
      destruct (cursor_loop_returns l i w0) as (b & evs & E & _) end.
    by rewrite E.
  - unfold mongo.ReadMostRecentRecord, mongo.FindOne, mongo.Decode. by exec.
Qed.

(** X14. An operation takes the same draws on either backend and
    whatever its outcome, also when the backend refuses the call:
    InsertRecord randomises the template and takes one new identifier,
    UpdateRecord samples one identifier and draws one balance, ReadRecord
    samples one identifier, ReadRange and ReadMostRecentRecord draw
    nothing. The template changes in InsertRecord only. *)
Theorem draws_do_not_depend_on_the_backend (p : Provider) (o : Op) w :
  let w' := snd (call p o w) in
  gen w' = match o with
           | OpInsert => snd (GetNew (gen w))
           | OpUpdate | OpRead => snd (GetExisting (gen w))
           | OpRange | OpRecent => gen w
           end
  /\ rnd w' = match o with
              | OpInsert => snd (Randomise (data w) (rnd w))
              | OpUpdate => snd (Float32 (rnd w))
              | _ => rnd w
              end
  /\ data w' = match o with
               | OpInsert => fresh_record w
               | _ => data w
               end.
Proof.
  cbv zeta. split; [apply gen_after_call|].
  destruct p as [pg|mg], o; cbn [call postgres.call mongo.call].
  - unfold fresh_record, postgres.InsertRecord, postgres.Exec. by exec.
  - unfold postgres.UpdateRecord, postgres.Exec. by exec.
  - unfold postgres.ReadRecord, postgres.QueryRow, postgres.Scan. by exec.
  - unfold postgres.ReadRange, postgres.Query. exec; [done|].
    match goal with |- context [postgres.scan_loop ?i ?l ?w0] =>
      destruct (scan_loop_returns l i w0) as (b & evs & E & _) end.
    by rewrite E.
  - unfold postgres.ReadMostRecentRecord, postgres.QueryRow, postgres.Scan.
    by exec.
  - unfold fresh_record, mongo.InsertRecord, mongo.InsertOne. by exec.
  - unfold mongo.UpdateRecord, mongo.UpdateOne. by exec.
  - unfold mongo.ReadRecord, mongo.FindOne, mongo.Decode. by exec.
  - unfold mongo.ReadRange, mongo.Find. exec; [done|].
    match goal with |- context [mongo.cursor_loop ?i ?l ?w0] =>
      destruct (cursor_loop_returns l i w0) as (b & evs & E & _) end.
    by rewrite E.
  - unfold mongo.ReadMostRecentRecord, mongo.FindOne, mongo.Decode. by exec.
Qed.

Lemma lookup_id_snoc id l (d : Doc) :
  id ∉ ids l -> d_id d = id -> lookup_id id (l ++ [d]) = Some d.
Proof.
  intros Hout Hid. unfold lookup_id, answer. rewrite List.filter_app.
  assert (List.filter (matches (MatchID id)) l = []) as ->.
  { clear Hid. induction l as [|x l IH]; [done|].
    change (ids (x :: l)) with (d_id x :: ids l) in Hout.
    apply not_elem_of_cons in Hout as [Hne Hout]. cbn.
    destruct (N.eqb_spec (d_id x) id); [done|]. by apply IH. }
  cbn. by rewrite Hid, N.eqb_refl.
Qed.

(** ReadRecord when an entity that decodes is stored under the sampled
    identifier and the driver delivers it. *)
Lemma ReadRecord_hit
  (pg : postgres.FuncProvider) (mg : mongo.FuncProvider) w d :
  lookup_id (fst (GetExisting (gen w))) (rows w) = Some d ->
  decodes d = true ->
  next_fault (env w) 0 = None ->
  scan_fault (env w) 0 = None ->
  (refusal Background (env w) = None ->
   fst (postgres.ReadRecord pg w) = Returned true
   /\ decoded (emitted w (snd (postgres.ReadRecord pg w))) = [d])
  /\ (refusal mongo.ctx (env w) = None ->
      fst (mongo.ReadRecord mg w) = Returned true
      /\ decoded (emitted w (snd (mongo.ReadRecord mg w))) = [d]).
Proof.
  unfold lookup_id, decodes. intros Hhit Hdec Hn Hs. split; intros Hr.
  - unfold postgres.ReadRecord, postgres.QueryRow, postgres.Scan.
    exec; cbn [fst snd head] in *; simplify_eq; try congruence.
    split; [done | by read_trace].
  - unfold mongo.ReadRecord, mongo.FindOne, mongo.Decode.
    exec; cbn [fst snd head] in *; simplify_eq; try congruence.
    split; [done | by read_trace].
Qed.

(** X15. After an InsertRecord that returned true with an identifier not
    stored before, a ReadRecord for which the generator samples that
    identifier returns true and decodes exactly the inserted record, the
    backend being able to deliver a row. *)
Theorem InsertRecord_then_ReadRecord
  (pg : postgres.FuncProvider) (mg : mongo.FuncProvider) w :
  let v := fst (GetNew (gen w)) in
  let w_pg := snd (postgres.InsertRecord pg w) in
  let w_mg := snd (mongo.InsertRecord mg w) in
  v ∉ ids (rows w) ->
  fst (GetExisting (snd (GetNew (gen w)))) = v ->
  next_fault (env w) 0 = None ->
  scan_fault (env w) 0 = None ->
  (fst (postgres.InsertRecord pg w) = Returned true ->
   fst (postgres.ReadRecord pg w_pg) = Returned true
   /\ decoded (emitted w_pg (snd (postgres.ReadRecord pg w_pg)))
      = [encode (fresh_record w)])
  /\ (fst (mongo.InsertRecord mg w) = Returned true ->
      fst (mongo.ReadRecord mg w_mg) = Returned true
      /\ decoded (emitted w_mg (snd (mongo.ReadRecord mg w_mg)))
         = [encode (fresh_record w)]).
Proof.
  cbv zeta. intros Hout Hsame Hn Hs.
  pose proof (gen_after_call (Postgres pg) OpInsert w) as Gpg.
  pose proof (gen_after_call (Mongo mg) OpInsert w) as Gmg.
  cbn [call postgres.call mongo.call] in Gpg, Gmg.
  split.
  - intros (Hrows & Henv & Hr)%postgres_InsertRecord_true.
    apply (ReadRecord_hit pg mg _ (encode (fresh_record w))).
    + rewrite Gpg, Hsame, Hrows. by apply lookup_id_snoc.
    + apply decodes_encode.
    + by rewrite Henv.
    + by rewrite Henv.
    + by rewrite Henv.
  - intros (Hrows & Henv & Hr)%mongo_InsertRecord_true.
    apply (ReadRecord_hit pg mg _ (encode (fresh_record w))).
    + rewrite Gmg, Hsame, Hrows. by apply lookup_id_snoc.
    + apply decodes_encode.
    + by rewrite Henv.
    + by rewrite Henv.
    + by rewrite Henv.
Qed.

End Reads.


(** ** Further properties of the construction *)

Section Endpoints.
Context `{CaseTable}.

Lemma Get_Del_eq (q : Values) k : Get (Del q k) k = "".
Proof. unfold Get, Del. by rewrite lookup_delete_eq. Qed.

Lemma stripped_without_fsync (q : Values) :
  Del (Del (Del (Del (Del q "fsync") "readConcern") "writeConcern") "journal")
    "fsync"
  = Del (Del (Del (Del q "readConcern") "writeConcern") "journal") "fsync".
Proof.
  apply map_eq. intros key. rewrite !lookup_Del.
  by repeat case_bool_decide.
Qed.

(** X16. An fsync parameter that passes validation has no effect on
    what the Mongo NewProvider returns or on the options it hands to the
    driver: both are those for the same endpoint without the parameter,
    whatever the driver does. *)
Theorem fsync_is_ignored
  (drv : mongodriver.Driver) (endpoint : URL) (tableName : string) :
  one_of (setting endpoint "fsync") [""; "false"; "0"; "true"; "1"] = true ->
  mongo.NewProvider drv endpoint tableName
  = mongo.NewProvider drv
      (set_RawQuery (Del (RawQuery endpoint) "fsync") endpoint) tableName.
Proof.
  unfold setting. intros Hfs.
  change [""; "false"; "0"; "true"; "1"]
    with ([""; "false"; "0"] ++ ["true"; "1"]) in Hfs.
  rewrite one_of_app in Hfs.
  unfold mongo.NewProvider. cbn [Path RawQuery set_RawQuery Scheme Host].
  rewrite !Get_Del_ne by done. rewrite Get_Del_eq, Hfs, stripped_without_fsync.
  reflexivity.
Qed.

(** X17. Neither NewProvider looks at the table or collection name: the
    error it returns and the connection it opens are the same for every
    name, so a name that is empty or does not exist is not found out
    at construction. *)
Theorem NewProvider_does_not_check_the_table
  (pdrv : pgxpool.Driver) (mdrv : mongodriver.Driver) (endpoint : URL)
  (t1 t2 : string) :
  snd (postgres.NewProvider pdrv endpoint t1)
  = snd (postgres.NewProvider pdrv endpoint t2)
  /\ postgres.DB <$> fst (postgres.NewProvider pdrv endpoint t1)
     = postgres.DB <$> fst (postgres.NewProvider pdrv endpoint t2)
  /\ snd (mongo.NewProvider mdrv endpoint t1)
     = snd (mongo.NewProvider mdrv endpoint t2)
  /\ mongo.Client <$> fst (mongo.NewProvider mdrv endpoint t1)
     = mongo.Client <$> fst (mongo.NewProvider mdrv endpoint t2).
Proof.
  split_and!.
  - unfold postgres.NewProvider. by repeat case_match.
  - unfold postgres.NewProvider. by repeat case_match.
  - unfold mongo.NewProvider. by repeat case_match.
  - unfold mongo.NewProvider. by repeat case_match.
Qed.

(** X18. The Mongo NewProvider checks the database name, the read
    concern, the write concern, the journal flag and the fsync flag in
    this order and returns the error of the first check that fails,
    without reaching the driver: an endpoint with several invalid
    parameters is refused for the first of them. *)
Theorem NewProvider_reports_the_first_failure
  (drv : mongodriver.Driver) (endpoint : URL) (tableName : string) :
  let run := mongo.NewProvider drv endpoint tableName in
  let flags := [""; "false"; "0"; "true"; "1"] in
  (TrimPrefix (Path endpoint) "/" = "" ->
   run = (None, Some "database name cannot be empty"))
  /\ (TrimPrefix (Path endpoint) "/" <> "" ->
      (one_of (setting endpoint "readConcern")
         [""; "majority"; "local"; "linearizable"] = false ->
       run = (None, Some "unknown readConcern value"))
      /\ (one_of (setting endpoint "readConcern")
            [""; "majority"; "local"; "linearizable"] = true ->
          (one_of (setting endpoint "writeConcern") [""; "majority"] = false ->
           forall err,
             Atoi (setting endpoint "writeConcern") = Err err ->
             run = (None,
                    Some (String.append "invalid writeConcern value: " err)))
          /\ (one_of (setting endpoint "writeConcern") [""; "majority"]
              || isOk (Atoi (setting endpoint "writeConcern")) = true ->
              (one_of (setting endpoint "journal") flags = false ->
               run = (None, Some "unknown journal value"))
              /\ (one_of (setting endpoint "journal") flags = true ->
                  one_of (setting endpoint "fsync") flags = false ->
                  run = (None, Some "unknown fsync value"))))).
Proof.
  cbv zeta. unfold setting, mongo.NewProvider.
  rewrite !Get_Del_ne by done.
  change [""; "majority"; "local"; "linearizable"]
    with ([""; "majority"] ++ ["local"] ++ ["linearizable"]).
  change [""; "false"; "0"; "true"; "1"]
    with ([""; "false"; "0"] ++ ["true"; "1"]).
  rewrite !one_of_app.
  split; [by intros -> |].
  intros Hdb%String.eqb_neq. rewrite Hdb.
  split.
  { intros (-> & (-> & ->)%orb_false_elim)%orb_false_elim. done. }
  intros Hrc.
  assert (exists rc,
            (if one_of (ToLower (Get (RawQuery endpoint) "readConcern"))
                  [""; "majority"]
             then Some mongodriver.Majority
             else if one_of (ToLower (Get (RawQuery endpoint) "readConcern"))
                       ["local"]
                  then Some mongodriver.Local
                  else if one_of
                            (ToLower (Get (RawQuery endpoint) "readConcern"))
                            ["linearizable"]
                       then Some mongodriver.Linearizable
                       else None) = Some rc) as [rc ->].
  { destruct (one_of _ [""; "majority"]); [by eexists|].
    destruct (one_of _ ["local"]); [by eexists|].
    destruct (one_of _ ["linearizable"]); [by eexists | done]. }
  split.
  { intros -> err ->. done. }
  intros Hwc.
  assert (exists wc,
            (if one_of (ToLower (Get (RawQuery endpoint) "writeConcern"))
                  [""; "majority"]
             then Ok (mongodriver.New mongodriver.WMajority)
             else match Atoi (ToLower (Get (RawQuery endpoint) "writeConcern"))
                  with
                  | Err err =>
                      Err (String.append "invalid writeConcern value: " err)
                  | Ok n => Ok (mongodriver.New (mongodriver.W n))
                  end) = Ok wc) as [wc ->].
  { destruct (one_of (ToLower (Get (RawQuery endpoint) "writeConcern")) _);
      [by eexists|].
    destruct (Atoi _); [by eexists | by cbn in Hwc]. }
  split.
  { intros (-> & ->)%orb_false_elim. done. }
  intros Hj (Hf1 & Hf2)%orb_false_elim. rewrite Hf1, Hf2.
  by repeat case_match.
Qed.


End Endpoints.

(** ** Concrete worlds for the further properties *)

Lemma healthy_no_faults : no_faults demo.healthy.
Proof. by split_and!. Qed.

(** X4. Two entities stored, the generator at 2: the insert takes 3, and
    GetMaxID of either backend returns 3 afterwards. *)
Lemma InsertRecord_then_newest_witness :
  let w := demo.world [demo.person 1 50; demo.person 2 60] demo.healthy 2
             [30%N; 5%N] in
  fst (postgres.GetMaxID demo.pg (snd (postgres.InsertRecord demo.pg w)))
  = Returned (3%N, None)
  /\ fst (mongo.GetMaxID demo.mg (snd (mongo.InsertRecord demo.mg w)))
     = Returned (3%N, None).
Proof.
  cbv zeta.
  destruct (InsertRecord_then_newest demo.pg demo.mg
              (demo.world [demo.person 1 50; demo.person 2 60] demo.healthy 2
                 [30%N; 5%N])) as [Hpg Hmg].
  - reflexivity.
  - intros d Hd. cbn [demo.world rows] in Hd.
    repeat (apply elem_of_cons in Hd as [->|Hd]; [by vm_compute|]).
    by apply elem_of_nil in Hd.
  - reflexivity.
  - reflexivity.
  - split; [apply Hpg | apply Hmg]; reflexivity.
Defined.

(** X5. Two entities stored under the sampled identifier 1: Postgres
    writes the balance of both, Mongo that of the first. *)
Lemma UpdateRecord_sets_the_balance_witness :
  let w := demo.world [demo.person 1 30; demo.person 1 40; demo.person 2 50]
             demo.healthy 1 [5%N] in
  answer (Select (MatchID 1)) (rows (snd (postgres.UpdateRecord demo.pg w)))
  = [set_balance (VNum 5) (demo.person 1 30);
     set_balance (VNum 5) (demo.person 1 40)]
  /\ lookup_id 1 (rows (snd (mongo.UpdateRecord demo.mg w)))
     = Some (set_balance (VNum 5) (demo.person 1 30))
  /\ rows (snd (mongo.UpdateRecord demo.mg w))
     = [set_balance (VNum 5) (demo.person 1 30); demo.person 1 40;
        demo.person 2 50].
Proof.
  cbv zeta.
  destruct (UpdateRecord_sets_the_balance demo.pg demo.mg
              (demo.world
                 [demo.person 1 30; demo.person 1 40; demo.person 2 50]
                 demo.healthy 1 [5%N])) as [Hpg Hmg].
  split; [exact (Hpg eq_refl) | split; [|reflexivity]].
  apply Hmg; [reflexivity | by vm_compute].
Defined.

(** X6. ReadRange over the ages 50 and 80 on a backend without faults. *)
Lemma readers_agree_witness :
  let w := demo.world [demo.person 1 50; demo.person 2 80] demo.healthy 2 [] in
  fst (postgres.call demo.pg OpRange w) = fst (mongo.call demo.mg OpRange w)
  /\ decoded (emitted w (snd (postgres.call demo.pg OpRange w)))
     = decoded (emitted w (snd (mongo.call demo.mg OpRange w))).
Proof.
  cbv zeta.
  apply (readers_agree demo.pg demo.mg OpRange
           (demo.world [demo.person 1 50; demo.person 2 80] demo.healthy 2 []));
    [exact healthy_no_faults | discriminate..].
Defined.

(** X7. Two entities with the identifiers 1 and 2. *)
Lemma updaters_agree_witness :
  let w := demo.world [demo.person 1 30; demo.person 2 40] demo.healthy 2
             [5%N] in
  fst (postgres.UpdateRecord demo.pg w) = Returned true
  /\ fst (mongo.UpdateRecord demo.mg w) = Returned true
  /\ rows (snd (postgres.UpdateRecord demo.pg w))
     = rows (snd (mongo.UpdateRecord demo.mg w)).
Proof.
  cbv zeta.
  destruct (updaters_agree demo.pg demo.mg
              (demo.world [demo.person 1 30; demo.person 2 40] demo.healthy 2
                 [5%N])) as (Hpg & Hfit & _).
  - exact healthy_no_faults.
  - apply (bool_decide_unpack _). reflexivity.
  - split; [exact Hpg|]. apply Hfit. by vm_compute.
Defined.

(** X8. One entity stored under 1, the generator at 1: both inserts store
    the record under 2. *)
Lemma inserters_agree_witness :
  let w := demo.world [demo.person 1 30] demo.healthy 1 [30%N; 5%N] in
  fst (postgres.InsertRecord demo.pg w) = Returned true
  /\ fst (mongo.InsertRecord demo.mg w) = Returned true
  /\ rows (snd (postgres.InsertRecord demo.pg w))
     = rows (snd (mongo.InsertRecord demo.mg w)).
Proof.
  cbv zeta.
  destruct (inserters_agree demo.pg demo.mg
              (demo.world [demo.person 1 30] demo.healthy 1 [30%N; 5%N]))
    as (Hpg & _ & _ & _ & Hfit & _).
  - exact healthy_no_faults.
  - reflexivity.
  - apply (bool_decide_unpack _). reflexivity.
  - split; [exact Hpg|]. apply Hfit. by vm_compute.
Defined.

(** X9. The identifiers 1 and 3 stored: both GetMaxID return 3. *)
Lemma GetMaxID_agree_off_zero_witness :
  let w := demo.world [demo.person 1 30; demo.person 3 40] demo.healthy 3 [] in
  fst (postgres.GetMaxID demo.pg w) = Returned (3%N, None)
  /\ fst (mongo.GetMaxID demo.mg w) = Returned (3%N, None).
Proof.
  cbv zeta.
  destruct (GetMaxID_agree_off_zero demo.pg demo.mg
              (demo.world [demo.person 1 30; demo.person 3 40] demo.healthy 3
                 [])) as [_ Hmax]; [exact healthy_no_faults|].
  apply Hmax; [|discriminate].
  split.
  - exists (demo.person 3 40). split; [|reflexivity].
    apply list_elem_of_further, list_elem_of_here.
  - intros d Hd. cbn [demo.world rows] in Hd.
    repeat (apply elem_of_cons in Hd as [->|Hd]; [by vm_compute|]).
    by apply elem_of_nil in Hd.
Defined.


(** X13. An update on a store of two entities that decode. *)
Lemma stored_entities_stay_decodable_witness :
  Forall (fun d => decodes d = true)
    (rows (snd (call (Postgres demo.pg) OpUpdate
                  (demo.world [demo.person 1 30; demo.person 2 40]
                     demo.healthy 2 [5%N])))).
Proof.
  apply stored_entities_stay_decodable. repeat constructor.
Defined.

(** X15. One entity stored under 7 and a generator that starts at 0: the
    insert takes the identifier 1, which the generator samples next. *)
Lemma InsertRecord_then_ReadRecord_witness :
  let w := demo.world [demo.person 7 30] demo.healthy 0 [30%N; 5%N] in
  fst (postgres.ReadRecord demo.pg (snd (postgres.InsertRecord demo.pg w)))
  = Returned true
  /\ fst (mongo.ReadRecord demo.mg (snd (mongo.InsertRecord demo.mg w)))
     = Returned true.
Proof.
  cbv zeta.
  destruct (InsertRecord_then_ReadRecord demo.pg demo.mg
              (demo.world [demo.person 7 30] demo.healthy 0 [30%N; 5%N]))
    as [Hpg Hmg].
  - apply (bool_decide_unpack _). reflexivity.
  - reflexivity.
  - reflexivity.
  - reflexivity.
  - split; [apply Hpg | apply Hmg]; reflexivity.
Defined.

(** X16. The endpoint [?fsync=TRUE&w=1] gives what the endpoint [?w=1]
    gives. *)
Lemma fsync_is_ignored_witness :
  mongo.NewProvider demo.mongo_up demo.synced "people"
  = mongo.NewProvider demo.mongo_up
      (set_RawQuery (Del (RawQuery demo.synced) "fsync") demo.synced)
      "people".
Proof.
  apply fsync_is_ignored. reflexivity.
Defined.
